(** * Antigravity process lifecycle: discovery, classification, launch, exit wait

    A shallow embedding of the process handler of AntigravityManager
    ([getRunningAntigravityProcesses], [isProcessRunning], [closeAntigravity],
    [_waitForProcessExit], [openUri], [startAntigravity]) and the properties
    its specification states about it.

    Layout: the string primitives of the JavaScript runtime the code relies
    on, the two process-table parsers and the classifier (pure code), then
    the operations that talk to the operating system, written in a small
    state-and-exception monad over an explicit model of the host. *)

From Stdlib Require Import Bool Arith NArith ZArith Lia List Ascii String.
Import ListNotations.

Local Open Scope list_scope.
Local Open Scope string_scope.

(** ** JavaScript strings

    A JavaScript string is a sequence of UTF-16 code units.  The embedding
    keeps the code units below 256 ([ascii]); every character class the
    source tests for (white space, line terminators, digits, the quote, the
    slash, letters) lies in that range. *)

Module Js.

Definition code (c : ascii) : N := N_of_ascii c.

Definition LF : ascii := "010"%char.
Definition CR : ascii := "013"%char.
Definition DQ : ascii := "034"%char.
Definition BS : ascii := "092"%char.

(** [\s] of a regular expression, and the characters [trim] strips:
    TAB, LF, VT, FF, CR, SPACE and NBSP. *)
Definition isWhiteSpace (c : ascii) : bool :=
  match code c with
  | 9 | 10 | 11 | 12 | 13 | 32 | 160 => true
  | _ => false
  end%N.

(** The characters [.] of a regular expression refuses. *)
Definition isLineTerminator (c : ascii) : bool :=
  match code c with
  | 10 | 13 => true
  | _ => false
  end%N.

(** [\d] *)
Definition isDigit (c : ascii) : bool :=
  ((48 <=? code c) && (code c <=? 57))%N.

(** [[a-z]] *)
Definition isLowerAZ (c : ascii) : bool :=
  ((97 <=? code c) && (code c <=? 122))%N.

Definition toLowerChar (c : ascii) : ascii :=
  let n := code c in
  if ((65 <=? n) && (n <=? 90))%N then ascii_of_N (n + 32)
  else if ((192 <=? n) && (n <=? 222) && negb (n =? 215))%N
       then ascii_of_N (n + 32)
  else c.

(** [toUpperCase] is only ever applied to a character captured by
    [[a-z]]. *)
Definition toUpperChar (c : ascii) : ascii :=
  if isLowerAZ c then ascii_of_N (code c - 32) else c.

Fixpoint toLowerCase (s : string) : string :=
  match s with
  | EmptyString => EmptyString
  | String c s' => String (toLowerChar c) (toLowerCase s')
  end.

(** Removes [p] from the front of [s] when [s] starts with it. *)
Fixpoint stripPrefix (p s : string) : option string :=
  match p, s with
  | EmptyString, _ => Some s
  | String a p', String b s' =>
      if Ascii.eqb a b then stripPrefix p' s' else None
  | String _ _, EmptyString => None
  end.

(** [s.startsWith(p)] *)
Definition startsWith (s p : string) : bool :=
  match stripPrefix p s with
  | Some _ => true
  | None => false
  end.

(** [s.includes(needle)] *)
Fixpoint includes (s needle : string) : bool :=
  startsWith s needle ||
  match s with
  | EmptyString => false
  | String _ s' => includes s' needle
  end.

Fixpoint trimStart (s : string) : string :=
  match s with
  | EmptyString => EmptyString
  | String c s' => if isWhiteSpace c then trimStart s' else s
  end.

Fixpoint trimEnd (s : string) : string :=
  match s with
  | EmptyString => EmptyString
  | String c s' =>
      match trimEnd s' with
      | EmptyString => if isWhiteSpace c then EmptyString
                       else String c EmptyString
      | r => String c r
      end
  end.

(** [s.trim()] *)
Definition trim (s : string) : string := trimEnd (trimStart s).

(** Puts [c] in front of the first piece of a split. *)
Definition consHead (c : ascii) (pieces : list string) : list string :=
  match pieces with
  | [] => [String c EmptyString]
  | p :: ps => String c p :: ps
  end.

(** [s.split(sep)] for a one-character separator. *)
Fixpoint splitChar (sep : ascii) (s : string) : list string :=
  match s with
  | EmptyString => [EmptyString]
  | String c s' =>
      if Ascii.eqb c sep then EmptyString :: splitChar sep s'
      else consHead c (splitChar sep s')
  end.

(** [s.split(/\r?\n/)]: a line feed, with the carriage return in front of
    it when there is one, separates two lines. *)
Fixpoint splitLines (s : string) : list string :=
  match s with
  | EmptyString => [EmptyString]
  | String c s' =>
      if Ascii.eqb c LF then EmptyString :: splitLines s'
      else
        match s' with
        | String d s'' =>
            if Ascii.eqb c CR && Ascii.eqb d LF
            then EmptyString :: splitLines s''
            else consHead c (splitLines s')
        | EmptyString => consHead c (splitLines s')
        end
  end.

Definition startsWithWhiteSpace (s : string) : bool :=
  match s with
  | String c _ => isWhiteSpace c
  | EmptyString => false
  end.

(** [s.split(/\s+/)]: every maximal run of white space is one separator;
    a run at either end leaves an empty piece there. *)
Fixpoint splitWhiteSpace (s : string) : list string :=
  match s with
  | EmptyString => [EmptyString]
  | String c s' =>
      if isWhiteSpace c then
        if startsWithWhiteSpace s' then splitWhiteSpace s'
        else EmptyString :: splitWhiteSpace s'
      else consHead c (splitWhiteSpace s')
  end.

(** [pieces.join(sep)] *)
Definition join (sep : string) (pieces : list string) : string :=
  String.concat sep pieces.

(** *** Numbers

    [parseInt] returns a Number, that is a double: NaN, an integer that a
    double holds, or an infinity.  Every integer below 2^53 in magnitude is
    held exactly; a larger one is rounded to 53 significant bits, ties to
    the even neighbour, and from 2^1024 on it is infinite. *)
Inductive Number : Type :=
| NaN
| Int (z : Z)
| Infinity (negative : bool).

Definition isNaN (n : Number) : bool :=
  match n with NaN => true | _ => false end.

(** [a === b] on Numbers: NaN equals nothing. *)
Definition strictEq (a b : Number) : bool :=
  match a, b with
  | Int x, Int y => Z.eqb x y
  | Infinity x, Infinity y => Bool.eqb x y
  | _, _ => false
  end.

(** [n < 0] on Numbers. *)
Definition isNegative (n : Number) : bool :=
  match n with
  | NaN => false
  | Int z => (z <? 0)%Z
  | Infinity negative => negative
  end.

(** The magnitude a double keeps of the natural number [a]; [None] when
    it overflows. *)
Definition roundMagnitude (a : Z) : option Z :=
  if (a <? 2 ^ 53)%Z then Some a
  else
    let e := (Z.log2 a - 52)%Z in
    let q := (a / 2 ^ e)%Z in
    let r := (a mod 2 ^ e)%Z in
    let half := (2 ^ (e - 1))%Z in
    let q' :=
      if (half <? r)%Z || ((r =? half)%Z && Z.odd q) then (q + 1)%Z else q in
    let m := (q' * 2 ^ e)%Z in
    if (2 ^ 1024 <=? m)%Z then None else Some m.

(** The Number for the integer of magnitude [a] and the given sign. *)
Definition toNumber (negative : bool) (a : Z) : Number :=
  match roundMagnitude a with
  | Some m => Int (if negative then - m else m)
  | None => Infinity negative
  end.

(** The value of [c] as a digit of the given radix. *)
Definition digitValue (radix : N) (c : ascii) : option Z :=
  let n := code c in
  let v :=
    if ((48 <=? n) && (n <=? 57))%N then Some (n - 48)%N
    else if ((97 <=? n) && (n <=? 122))%N then Some (n - 87)%N
    else if ((65 <=? n) && (n <=? 90))%N then Some (n - 55)%N
    else None in
  match v with
  | Some d => if (d <? radix)%N then Some (Z.of_N d) else None
  | None => None
  end.

(** Reads digits of the radix from the front of [s]; [acc] is the value
    read so far, [seen] whether a digit was read. *)
Fixpoint parseDigits (radix : N) (s : string) (seen : bool) (acc : Z)
  : option Z :=
  match s with
  | EmptyString => if seen then Some acc else None
  | String c s' =>
      match digitValue radix c with
      | Some d => parseDigits radix s' true (acc * Z.of_N radix + d)
      | None => if seen then Some acc else None
      end
  end.

Definition parseUnsigned (s : string) : option Z :=
  match s with
  | String a (String b s') =>
      if Ascii.eqb a "0" && (Ascii.eqb b "x" || Ascii.eqb b "X")
      then parseDigits 16 s' false 0
      else parseDigits 10 s false 0
  | _ => parseDigits 10 s false 0
  end.

(** [parseInt(s)] with no radix: leading white space, a sign, a [0x]
    prefix, then the longest run of digits; NaN when there is none.  The
    result is the Number for the value of the digits, rounded as a double
    is (the runtime may approximate a decimal run past its 20th
    significant digit; the model rounds the exact value). *)
Definition parseInt (s : string) : Number :=
  let t := trimStart s in
  let negative :=
    match t with String c _ => Ascii.eqb c "-" | EmptyString => false end in
  let body :=
    match t with
    | String c r => if Ascii.eqb c "-" || Ascii.eqb c "+" then r else t
    | EmptyString => t
    end in
  match parseUnsigned body with
  | Some v => toNumber negative v
  | None => NaN
  end.

End Js.

(** ** Process records and the two parsers *)

Record ProcessInfo : Type := mkProcessInfo {
  pid : Js.Number;
  name : string;
  cmd : string
}.

(** The order-preserving [push] loop: one optional record per line. *)
Fixpoint collect {A B : Type} (f : A -> option B) (l : list A) : list B :=
  match l with
  | [] => []
  | x :: l' =>
      match f x with
      | Some y => y :: collect f l'
      | None => collect f l'
      end
  end.

Module Csv.

(** The separator between two quoted fields: quote, comma, quote. *)
Definition fieldSep : string :=
  String Js.DQ (String "," (String Js.DQ EmptyString)).

(** Greedy [\d*]: the longest run of digits and what follows it. *)
Fixpoint takeDigits (s : string) : string * string :=
  match s with
  | EmptyString => (EmptyString, EmptyString)
  | String c s' =>
      if Js.isDigit c
      then let (ds, rest) := takeDigits s' in (String c ds, rest)
      else (EmptyString, s)
  end.

(** The last lazy group [(.*?)] and the closing quote at [$]: stop as
    soon as what is left is the closing quote, otherwise let [.] take one
    more character. *)
Fixpoint matchLastField (s : string) : option string :=
  match s with
  | EmptyString => None
  | String c s' =>
      match s' with
      | EmptyString => if Ascii.eqb c Js.DQ then Some EmptyString else None
      | String _ _ =>
          if Js.isLineTerminator c then None
          else option_map (String c) (matchLastField s')
      end
  end.

(** The first lazy group [(.*?)], the separator and the last field: at
    every position first try the separator followed by a last field,
    otherwise let [.] take one more character. *)
Fixpoint matchFields (s : string) : option (string * string) :=
  let here :=
    match Js.stripPrefix fieldSep s with
    | Some rest => option_map (pair EmptyString) (matchLastField rest)
    | None => None
    end in
  match here with
  | Some r => Some r
  | None =>
      match s with
      | EmptyString => None
      | String c s' =>
          if Js.isLineTerminator c then None
          else
            match matchFields s' with
            | Some (n, c') => Some (String c n, c')
            | None => None
            end
      end
  end.

(** [line.match] against the row pattern: an opening quote at [^], the
    group [(\d+)], the separator, then the two lazy groups; the result
    holds the three captures. *)
Definition matchRow (line : string) : option (string * string * string) :=
  match line with
  | String c0 s =>
      if Ascii.eqb c0 Js.DQ then
        match takeDigits s with
        | (EmptyString, _) => None
        | (ds, rest) =>
            match Js.stripPrefix fieldSep rest with
            | Some rest' =>
                match matchFields rest' with
                | Some (n, c) => Some (ds, n, c)
                | None => None
                end
            | None => None
            end
        end
      else None
  | EmptyString => None
  end.

(** The body of the loop over the data lines (source lines 64-75); an
    empty command line falls back to the name ([cmdLine || name]). *)
Definition parseRow (line : string) : option ProcessInfo :=
  match line with
  | EmptyString => None
  | _ =>
      match matchRow line with
      | Some (ds, n, c) =>
          Some {| pid := Js.parseInt ds;
                  name := n;
                  cmd := match c with EmptyString => n | _ => c end |}
      | None => None
      end
  end.

(** The [win32] branch: the first line holds the headers and is
    skipped. *)
Definition parseOutput (output : string) : list ProcessInfo :=
  collect parseRow (tl (Js.splitLines (Js.trim output))).

End Csv.

Module Ps.

(** The body of the loop over the lines of [ps -A -o pid,comm,args]
    (source lines 80-97). *)
Definition parseLine (line : string) : option ProcessInfo :=
  let parts := Js.splitWhiteSpace (Js.trim line) in
  if (List.length parts <? 2)%nat then None
  else
    let p := Js.parseInt (hd EmptyString parts) in
    if Js.isNaN p then None
    else
      let rest := Js.join " " (tl parts) in
      if Js.includes (Js.toLowerCase rest) "antigravity"
      then Some {| pid := p; name := nth 1 parts EmptyString; cmd := rest |}
      else None.

Definition parseOutput (output : string) : list ProcessInfo :=
  collect parseLine (Js.splitChar Js.LF output).

End Ps.

(** [process.platform] is kept as the string the runtime reports. *)
Definition isWin32 (platform : string) : bool := String.eqb platform "win32".
Definition isDarwin (platform : string) : bool := String.eqb platform "darwin".

(** The list the parsers build before it is filtered ([processList]). *)
Definition processList (platform output : string) : list ProcessInfo :=
  if isWin32 platform then Csv.parseOutput output else Ps.parseOutput output.

(** The callback of [processList.filter] (source lines 102-142). *)
Definition isTargetProcess (platform : string) (currentPid : Z)
    (p : ProcessInfo) : bool :=
  if Js.strictEq (pid p) (Js.Int currentPid) then false
  else
    let cmdLower := Js.toLowerCase (cmd p) in
    if Js.includes cmdLower "antigravity manager" then false
    else if isWin32 platform then
      Js.includes (cmd p) "Antigravity.exe"
      || (Js.includes cmdLower "antigravity"
          && negb (Js.includes cmdLower "manager"))
    else if isDarwin platform then
      Js.includes (cmd p) "Antigravity.app"
      || (Js.includes (cmd p) "Antigravity"
          && negb (Js.includes cmdLower "manager"))
    else
      Js.includes (cmd p) "Antigravity" || Js.includes cmdLower "antigravity".

Definition classify (platform : string) (currentPid : Z)
    (records : list ProcessInfo) : list ProcessInfo :=
  filter (isTargetProcess platform currentPid) records.

(** The path rewrite of the WSL launch (source lines 325-327):
    [.replace(/^\/mnt\/([a-z])\//, ...)] then [.replace(/\//g, '\\')]. *)
Fixpoint replaceSlashes (s : string) : string :=
  match s with
  | EmptyString => EmptyString
  | String c s' =>
      String (if Ascii.eqb c "/" then Js.BS else c) (replaceSlashes s')
  end.

Definition replaceDriveMount (path : string) : string :=
  match Js.stripPrefix "/mnt/" path with
  | Some (String drive (String "/" rest)) =>
      if Js.isLowerAZ drive
      then String (Js.toUpperChar drive) (String ":" (String Js.BS rest))
      else path
  | _ => path
  end.

Definition toWinPath (execPath : string) : string :=
  replaceSlashes (replaceDriveMount execPath).

(** *** Sample inputs *)

Definition q : string := String Js.DQ EmptyString.
Definition nl : string := String Js.LF EmptyString.
Definition crlf : string := String Js.CR (String Js.LF EmptyString).

Definition csvHeader : string :=
  q ++ "ProcessId" ++ Csv.fieldSep ++ "Name" ++ Csv.fieldSep
    ++ "CommandLine" ++ q.

(** A data row in the quoted form: three quoted fields, comma-separated. *)
Definition csvRow (ds n c : string) : string :=
  q ++ ds ++ Csv.fieldSep ++ n ++ Csv.fieldSep ++ c ++ q.

(** ** The host: operating system, clock and logger

    Every request the code sends to the operating system is answered by the
    host.  A [Host] fixes, for the n-th request of a run, what the answer is
    and how long it takes, so a run is a function of the host; quantifying
    over hosts covers every behaviour of the operating system.

    The three collaborators the handler imports are parameters as well:
    [wsl] is the signal of the compatibility-layer detector, [installPath]
    the path the installation-path resolver supplies, and the logger is the
    [logs] of the state; a logger call only adds a line, it never throws and
    never changes the control flow. *)

(** A thrown value, identified by its message. *)
Definition JsError : Type := string.

Inductive Result (A : Type) : Type :=
| Ok (a : A)
| Throw (e : JsError).
Arguments Ok {A} a.
Arguments Throw {A} e.

(** The object [exec] returns.  A spawn that fails after [exec] has returned
    is reported by an [error] event on the child; [spawnError] is that
    event. *)
Record ChildProcess : Type := mkChild {
  spawnError : option JsError
}.

Record Host : Type := mkHost {
  platform : string;                 (* process.platform *)
  currentPid : Z;                    (* process.pid *)
  wsl : bool;                        (* isWsl() *)
  installPath : string;              (* getAntigravityExecutablePath() *)
  execSyncReply : nat -> string -> N * Result string;
  execAsyncReply : nat -> string -> N * Result unit;
  execReply : nat -> string -> Result ChildProcess;
  killReply : nat -> Js.Number -> Result unit;
  timerLateness : nat -> N
}.

Inductive Call : Type :=
| CallExecSync (command : string)
| CallExecAsync (command : string)
| CallExec (command : string)
| CallKill (target : Js.Number)
| CallSetTimeout (ms : Z).

Inductive Level : Type := LInfo | LWarn | LError | LDebug.

(** A logger call: level, message (without its interpolated values) and the
    error passed along, if any. *)
Record LogEntry : Type := mkLog {
  level : Level;
  message : string;
  detail : option JsError
}.

(** The clock moves with the time the requests take and never runs
    backwards. *)
Record State : Type := mkState {
  now : Z;                 (* what Date.now() reads, in milliseconds *)
  requests : nat;          (* requests answered so far *)
  calls : list Call;       (* the requests, oldest first *)
  logs : list LogEntry     (* the logger calls, oldest first *)
}.

(** A computation reads and updates the state and returns or throws. *)
Definition M (A : Type) : Type := State -> Result A * State.

Definition ret {A : Type} (a : A) : M A := fun st => (Ok a, st).

Definition throw {A : Type} (e : JsError) : M A := fun st => (Throw e, st).

Definition bind {A B : Type} (m : M A) (k : A -> M B) : M B :=
  fun st =>
    match m st with
    | (Ok a, st') => k a st'
    | (Throw e, st') => (Throw e, st')
    end.

(** [try { m } catch (e) { handler e }] *)
Definition tryCatch {A : Type} (m : M A) (handler : JsError -> M A) : M A :=
  fun st =>
    match m st with
    | (Ok a, st') => (Ok a, st')
    | (Throw e, st') => handler e st'
    end.

Declare Scope js_scope.
Delimit Scope js_scope with js.
Notation "x <- m ;; k" := (bind m (fun x => k))
  (at level 61, m at next level, right associativity) : js_scope.
Notation "m ;; k" := (bind m (fun _ => k))
  (at level 61, right associativity) : js_scope.
Local Open Scope js_scope.

Definition record (c : Call) (elapsed : Z) (st : State) : State :=
  {| now := now st + elapsed;
     requests := S (requests st);
     calls := (calls st ++ [c])%list;
     logs := logs st |}.

Definition logWith (l : Level) (msg : string) (d : option JsError) : M unit :=
  fun st =>
    (Ok tt,
     {| now := now st; requests := requests st; calls := calls st;
        logs := (logs st ++ [mkLog l msg d])%list |}).

Definition log (l : Level) (msg : string) : M unit := logWith l msg None.

Section Primitives.

Variable host : Host.

Definition execSync (command : string) : M string :=
  fun st =>
    let (elapsed, r) := execSyncReply host (requests st) command in
    (r, record (CallExecSync command) (Z.of_N elapsed) st).

(** [await execAsync(command)] *)
Definition execAsync (command : string) : M unit :=
  fun st =>
    let (elapsed, r) := execAsyncReply host (requests st) command in
    (r, record (CallExecAsync command) (Z.of_N elapsed) st).

(** [exec(command)] with no callback: returns the child at once. *)
Definition exec (command : string) : M ChildProcess :=
  fun st =>
    (execReply host (requests st) command, record (CallExec command) 0 st).

(** [process.kill(target, 'SIGKILL')] *)
Definition kill (target : Js.Number) : M unit :=
  fun st => (killReply host (requests st) target, record (CallKill target) 0 st).

(** [await new Promise((resolve) => setTimeout(resolve, ms))]: the timer
    fires [ms] milliseconds later or later still, never sooner. *)
Definition sleep (ms : Z) : M unit :=
  fun st =>
    (Ok tt,
     record (CallSetTimeout ms)
            (ms + Z.of_N (timerLateness host (requests st))) st).

End Primitives.

(** ** The process handler *)

Definition bs : string := String Js.BS EmptyString.

(** The PowerShell query for one of the two instrumentation cmdlets. *)
Definition psCommand (cmdlet : string) : string :=
  "powershell -NoProfile -Command " ++ q ++ cmdlet
    ++ " Win32_Process -Filter " ++ bs ++ q ++ "Name like 'Antigravity%'"
    ++ bs ++ q
    ++ " | Select-Object ProcessId, Name, CommandLine | ConvertTo-Csv -NoTypeInformation"
    ++ q.

Definition quoted (s : string) : string := q ++ s ++ q.

Definition timeoutError : JsError := "Process did not exit within timeout".

Section Handler.

Variable host : Host.

(** Source lines 24-54. *)
Definition getRawOutput : M string :=
  if isWin32 (platform host) then
    tryCatch (execSync host (psCommand "Get-CimInstance"))
      (fun e =>
         tryCatch (execSync host (psCommand "Get-WmiObject"))
           (fun innerE => throw e))
  else execSync host "ps -A -o pid,comm,args".

(** Source lines 17-148. *)
Definition getRunningAntigravityProcesses : M (list ProcessInfo) :=
  tryCatch
    (output <- getRawOutput ;;
     ret (classify (platform host) (currentPid host)
            (processList (platform host) output)))
    (fun e =>
       logWith LError "Failed to list processes" (Some e) ;;
       ret []).

(** Source lines 154-170. *)
Definition isProcessRunning : M bool :=
  tryCatch
    (runningProcesses <- getRunningAntigravityProcesses ;;
     let isRunning := (0 <? List.length runningProcesses)%nat in
     log LDebug "isProcessRunning check" ;;
     (if isRunning then log LDebug "Running processes" else ret tt) ;;
     ret isRunning)
    (fun error =>
       logWith LError "Error checking process status:" (Some error) ;;
       ret false).

(** Stage 1 of [closeAntigravity] (source lines 181-209). *)
Definition gracefulShutdown : M unit :=
  if isDarwin (platform host) then
    tryCatch
      (log LInfo "Attempting graceful exit via AppleScript..." ;;
       _ <- execSync host
              ("osascript -e 'tell application " ++ quoted "Antigravity"
                 ++ " to quit'") ;;
       sleep host 2000)
      (fun _ => log LWarn "AppleScript exit failed, proceeding to next stage")
  else if isWin32 (platform host) then
    tryCatch
      (log LInfo "Attempting graceful exit via taskkill..." ;;
       _ <- execSync host ("taskkill /IM " ++ quoted "Antigravity.exe" ++ " /T") ;;
       sleep host 1000)
      (fun _ => ret tt)
  else ret tt.

(** The loop of source lines 220-226: one kill per record, a failure is
    ignored and the loop goes on. *)
Fixpoint killEach (targets : list ProcessInfo) : M unit :=
  match targets with
  | [] => ret tt
  | p :: rest =>
      tryCatch (kill host (pid p)) (fun _ => ret tt) ;;
      killEach rest
  end.

(** The handler of the outer [catch] (source lines 227-239). *)
Definition fallbackKill : M unit :=
  tryCatch
    (_ <- (if isWin32 (platform host)
           then execSync host
                  ("taskkill /F /IM " ++ quoted "Antigravity.exe" ++ " /T")
           else execSync host "pkill -9 -f Antigravity") ;;
     ret tt)
    (fun _ => ret tt).

(** Source lines 176-240. *)
Definition closeAntigravity : M unit :=
  log LInfo "Closing Antigravity..." ;;
  tryCatch
    (gracefulShutdown ;;
     targetProcessList <- getRunningAntigravityProcesses ;;
     if (List.length targetProcessList =? 0)%nat then
       log LInfo "No Antigravity processes found running."
     else
       log LInfo "Found remaining Antigravity processes. Killing..." ;;
       killEach targetProcessList)
    (fun error =>
       logWith LError "Error closing Antigravity" (Some error) ;;
       fallbackKill).

(** The loop of [_waitForProcessExit] (source lines 249-255).  [fuel]
    bounds the number of iterations; [None] means it ran out. *)
Fixpoint waitLoop (fuel : nat) (startTime timeoutMs : Z) (st : State)
  : option (Result unit * State) :=
  match fuel with
  | O => None
  | S fuel' =>
      if now st - startTime <? timeoutMs then
        match isProcessRunning st with
        | (Ok running, st1) =>
            if negb running then Some (Ok tt, st1)
            else
              let (_, st2) := sleep host 500 st1 in
              waitLoop fuel' startTime timeoutMs st2
        | (Throw e, st1) => Some (Throw e, st1)
        end
      else Some (Throw timeoutError, st)
  end%Z.

(** Source lines 247-256.  The clock of the model moves only with the
    requests made of the host, so the reading of [Date.now()] that gives
    [startTime] and the reading of the first test of the loop, with no
    request between them, are one value. *)
Definition _waitForProcessExit (fuel : nat) (timeoutMs : Z) (st : State)
  : option (Result unit * State) :=
  waitLoop fuel (now st) timeoutMs st.

(** Source lines 263-286. *)
Definition openUri (uri : string) : M bool :=
  tryCatch
    ((if isDarwin (platform host) then
        execAsync host ("open " ++ quoted uri)
      else if isWin32 (platform host) then
        execAsync host ("start " ++ quoted EmptyString ++ " " ++ quoted uri)
      else if wsl host then
        execAsync host
          ("/mnt/c/Windows/System32/cmd.exe /c start " ++ quoted EmptyString
             ++ " " ++ quoted uri)
      else
        execAsync host ("xdg-open " ++ quoted uri)) ;;
     ret true)
    (fun error =>
       logWith LError "Failed to open URI" (Some error) ;;
       ret false).

(** The command of the executable launch, per platform (source lines
    318-334). *)
Definition launchCommand : string :=
  if isDarwin (platform host) then "open -a Antigravity"
  else if isWin32 (platform host) then
    "start " ++ quoted EmptyString ++ " " ++ quoted (installPath host)
  else if wsl host then
    "/mnt/c/Windows/System32/cmd.exe /c start " ++ quoted EmptyString
      ++ " " ++ quoted (toWinPath (installPath host))
  else quoted (installPath host).

(** Whether the executable launch awaits its command; native Linux spawns
    the child with [exec] and lets go of it with [unref]. *)
Definition launchAwaits : bool :=
  isDarwin (platform host) || isWin32 (platform host) || wsl host.

(** The fallback to the executable path (source lines 314-339). *)
Definition launchExecutable : M unit :=
  log LInfo "Using executable path to start..." ;;
  tryCatch
    ((if isDarwin (platform host) then
        execAsync host "open -a Antigravity"
      else if isWin32 (platform host) then
        execAsync host
          ("start " ++ quoted EmptyString ++ " " ++ quoted (installPath host))
      else if wsl host then
        let winPath := toWinPath (installPath host) in
        execAsync host
          ("/mnt/c/Windows/System32/cmd.exe /c start " ++ quoted EmptyString
             ++ " " ++ quoted winPath)
      else
        child <- exec host (quoted (installPath host)) ;;
        ret tt) ;;
     log LInfo "Antigravity launch command sent")
    (fun error =>
       logWith LError "Failed to start Antigravity via executable" (Some error) ;;
       throw error).

(** Source lines 293-340. *)
Definition startAntigravity (useUri : bool) : M unit :=
  log LInfo "Starting Antigravity..." ;;
  running <- isProcessRunning ;;
  if running then log LInfo "Antigravity is already running"
  else if useUri then
    log LInfo "Using URI protocol to start..." ;;
    sent <- openUri "antigravity://oauth-success" ;;
    if sent then log LInfo "Antigravity URI launch command sent"
    else
      log LWarn "URI launch failed, trying executable path..." ;;
      launchExecutable
  else launchExecutable.

End Handler.

(** ** Shapes of strings used in the statements *)

Fixpoint allChars (f : ascii -> bool) (s : string) : bool :=
  match s with
  | EmptyString => true
  | String c s' => f c && allChars f s'
  end.

Definition nonEmpty (s : string) : bool :=
  match s with
  | EmptyString => false
  | String _ _ => true
  end.

Fixpoint endsWithWhiteSpace (s : string) : bool :=
  match s with
  | EmptyString => false
  | String c EmptyString => Js.isWhiteSpace c
  | String _ s' => endsWithWhiteSpace s'
  end.

(** Only white space. *)
Definition isBlank (s : string) : bool := allChars Js.isWhiteSpace s.

(** At least one digit and nothing but digits. *)
Definition isDigits (s : string) : bool := nonEmpty s && allChars Js.isDigit s.

(** Characters that [.] matches only. *)
Definition isPlain (s : string) : bool :=
  allChars (fun c => negb (Js.isLineTerminator c)) s.



Fixpoint decimalFrom (acc : Z) (ds : string) : Z :=
  match ds with
  | EmptyString => acc
  | String c ds' => decimalFrom (acc * 10 + (Z.of_N (Js.code c) - 48)) ds'
  end.

(** The number a run of decimal digits denotes. *)
Definition decimalValue (ds : string) : Z := decimalFrom 0 ds.

(** ** Rows of the structured query and lines of the snapshot *)








(** A token has no white space in it; a gap is white space only; both have
    at least one character. *)
Definition isToken (t : string) : bool :=
  nonEmpty t && allChars (fun c => negb (Js.isWhiteSpace c)) t.

Definition isGap (w : string) : bool := nonEmpty w && isBlank w.

(** A first token and then, any number of times, a gap and a token. *)
Fixpoint spread (first : string) (more : list (string * string)) : string :=
  match more with
  | [] => first
  | (gap, t) :: rest => first ++ gap ++ spread t rest
  end.

Definition wellSpaced (more : list (string * string)) : bool :=
  forallb (fun gt => isGap (fst gt) && isToken (snd gt)) more.

(** What a line made of the given tokens yields, whatever its spacing. *)
Definition recordOfTokens (first : string) (others : list string)
  : option ProcessInfo :=
  match others with
  | [] => None
  | second :: _ =>
      let p := Js.parseInt first in
      if Js.isNaN p then None
      else
        let rest := Js.join " " others in
        if Js.includes (Js.toLowerCase rest) "antigravity"
        then Some {| pid := p; name := second; cmd := rest |}
        else None
  end.

(** ** Observations on a run *)

Definition initialState : State := mkState 0 0 [] [].

(** The two debug lines of [isProcessRunning]. *)
Definition pollLogs (found : bool) : list LogEntry :=
  mkLog LDebug "isProcessRunning check" None
    :: (if found then [mkLog LDebug "Running processes" None] else []).

(** The per-pid kill requests of a run. *)
Definition isKill (c : Call) : bool :=
  match c with CallKill _ => true | _ => false end.

Definition killCalls (st : State) : list Call := filter isKill (calls st).

(** The state in which [closeAntigravity] runs discovery: after its first
    log line and the graceful stage. *)
Definition verifyingState (host : Host) (st : State) : State :=
  snd (gracefulShutdown host (snd (log LInfo "Closing Antigravity..." st))).

(** One turn of the wait loop while the target is still running: a poll,
    then the 500 ms timer. *)
Definition afterRound (host : Host) (st : State) : State :=
  snd (sleep host 500 (snd (isProcessRunning host st))).

Fixpoint afterRounds (host : Host) (k : nat) (st : State) : State :=
  match k with
  | O => st
  | S k' => afterRounds host k' (afterRound host st)
  end.


Definition protocolUri : string := "antigravity://oauth-success".


(** What the request of the executable launch throws into the [try] block
    when the host answers it as its [n]-th request. *)
Definition launchThrows (host : Host) (n : nat) : option JsError :=
  if launchAwaits host then
    match snd (execAsyncReply host n (launchCommand host)) with
    | Throw e => Some e
    | Ok _ => None
    end
  else
    match execReply host n (launchCommand host) with
    | Throw e => Some e
    | Ok _ => None
    end.

(** The dispatch failure of the executable launch, whether it is thrown or
    reported later on the child. *)
Definition launchDispatchError (host : Host) (n : nat) : option JsError :=
  if launchAwaits host then launchThrows host n
  else
    match execReply host n (launchCommand host) with
    | Throw e => Some e
    | Ok child => spawnError child
    end.


(** ** Sample inputs and sample hosts *)

Definition tab : string := String "009"%char EmptyString.

Definition sampleCommandLine : string := "C:\Program Files\App\App.exe --flag".


Definition shortPathCommandLine : string := "C:\PROGRA~1\ANTIGR~1\ANTIGR~1.EXE".

Definition sampleSnapshotLine : string :=
  "5678 Antigravity /usr/local/bin/Antigravity --serve".

Definition managerPath : string :=
  "/Applications/App Manager.app/Contents/MacOS/App Manager".

Definition antigravityManagerPath : string :=
  "/Applications/Antigravity Manager.app/Contents/MacOS/Antigravity Manager".

(** A Windows host on which both instrumentation queries fail. *)
Definition winBothFail : Host :=
  mkHost "win32" 4242 false "C:\Antigravity\Antigravity.exe"
    (fun n _ => (0%N, Throw (if (n =? 0)%nat then "CIM unavailable"
                              else "WMI unavailable")))
    (fun _ _ => (0%N, Ok tt))
    (fun _ _ => Ok (mkChild None))
    (fun _ _ => Ok tt)
    (fun _ => 0%N).

(** A macOS host whose process table only shows the manager itself. *)
Definition macManagerOnly : Host :=
  mkHost "darwin" 4242 false "/Applications/Antigravity.app"
    (fun _ command =>
       (20%N,
        if Js.startsWith command "ps "
        then Ok ("  PID COMM ARGS" ++ nl
                   ++ " 77 Antigravity /Applications/Antigravity Manager.app/Contents/MacOS/Antigravity Manager"
                   ++ nl)
        else Ok EmptyString))
    (fun _ _ => (0%N, Ok tt))
    (fun _ _ => Ok (mkChild None))
    (fun _ _ => Ok tt)
    (fun _ => 3%N).

(** A Linux host on which nothing runs, no launcher can be dispatched, and
    the spawned child reports a spawn error. *)
Definition linuxNothingWorks : Host :=
  mkHost "linux" 4242 false "/opt/Antigravity/antigravity"
    (fun _ _ => (15%N, Ok EmptyString))
    (fun _ _ => (5%N, Throw "xdg-open: not found"))
    (fun _ _ => Ok (mkChild (Some "spawn /bin/sh ENOENT")))
    (fun _ _ => Ok tt)
    (fun _ => 1%N).

(** A Linux host whose snapshot shows Antigravity (pid 5678) for the first
    [k] requests and nothing afterwards. *)
Definition linuxRunningFor (k : nat) : Host :=
  mkHost "linux" 4242 false "/opt/Antigravity/antigravity"
    (fun n _ =>
       (15%N, Ok (if (n <? k)%nat then sampleSnapshotLine else EmptyString)))
    (fun _ _ => (5%N, Ok tt))
    (fun _ _ => Ok (mkChild None))
    (fun _ _ => Ok tt)
    (fun _ => 1%N).

(** A macOS host on which nothing runs and every launcher is rejected. *)
Definition macNoLaunchers : Host :=
  mkHost "darwin" 4242 false "/Applications/Antigravity.app"
    (fun _ _ => (20%N, Ok EmptyString))
    (fun n _ => (5%N, Throw (if (n =? 1)%nat then "no handler for the scheme"
                              else "unable to find application")))
    (fun _ _ => Ok (mkChild None))
    (fun _ _ => Ok tt)
    (fun _ => 3%N).

(** A Linux host whose snapshot has a zero and a negative number in the
    pid column. *)
Definition linuxOddPids : Host :=
  mkHost "linux" 4242 false "/opt/Antigravity/antigravity"
    (fun _ _ => (15%N, Ok ("   0 Antigravity /opt/Antigravity/antigravity" ++ nl
                           ++ "  -1 Antigravity /opt/Antigravity/antigravity")))
    (fun _ _ => (5%N, Ok tt))
    (fun _ _ => Ok (mkChild None))
    (fun _ _ => Ok tt)
    (fun _ => 1%N).

(** What a run of the wait loop shows: result, clock and requests. *)
Definition outcome (r : option (Result unit * State))
  : option (Result unit * Z * list Call) :=
  option_map (fun x => (fst x, now (snd x), calls (snd x))) r.

Definition psSnapshot : Call := CallExecSync "ps -A -o pid,comm,args".

(** ** Kinds of requests

    The commands the handler sends, by name, and the tests that tell the
    requests of a run apart. *)

Definition psListCommand : string := "ps -A -o pid,comm,args".

Definition osascriptCommand : string :=
  "osascript -e 'tell application " ++ quoted "Antigravity" ++ " to quit'".

Definition taskkillCommand : string :=
  "taskkill /IM " ++ quoted "Antigravity.exe" ++ " /T".

Definition forceTaskkillCommand : string :=
  "taskkill /F /IM " ++ quoted "Antigravity.exe" ++ " /T".

Definition pkillCommand : string := "pkill -9 -f Antigravity".

(** A process-table query of [getRawOutput]. *)
Definition isQuery (c : Call) : bool :=
  match c with
  | CallExecSync command =>
      String.eqb command psListCommand
      || String.eqb command (psCommand "Get-CimInstance")
      || String.eqb command (psCommand "Get-WmiObject")
  | _ => false
  end.

(** A request of the graceful stage: the quit request or the pause. *)
Definition isGracefulStep (c : Call) : bool :=
  match c with
  | CallExecSync command =>
      String.eqb command osascriptCommand || String.eqb command taskkillCommand
  | CallSetTimeout ms => (ms =? 2000)%Z || (ms =? 1000)%Z
  | _ => false
  end.

(** The kill by name of the outer [catch] of [closeAntigravity]. *)
Definition isFallbackKill (c : Call) : bool :=
  match c with
  | CallExecSync command =>
      String.eqb command forceTaskkillCommand || String.eqb command pkillCommand
  | _ => false
  end.

(** The 500 ms timer of the wait loop. *)
Definition isPollTimer (c : Call) : bool :=
  match c with
  | CallSetTimeout ms => (ms =? 500)%Z
  | _ => false
  end.

(** One [process.kill] per record, in the order of the records. *)
Definition killRequests (targets : list ProcessInfo) : list Call :=
  map (fun p => CallKill (pid p)) targets.

(** ** The front of [decrypt] (second source file, lines 114-146)

    The function first decides from the text alone whether it is cipher
    text at all.  The key store ([getOrGenerateMasterKey]) and the cipher
    of the runtime ([Buffer.from], [createDecipheriv], [setAuthTag],
    [update], [final], taken together as [decipher]) are parameters: the
    statements hold whatever they do. *)

Section Security.

Variable Key : Type.
Variable getOrGenerateMasterKey : M Key.
Variable decipher : Key -> string -> string -> string -> M string.

Definition decrypt (text : string) : M string :=
  if Js.startsWith text "{" || Js.startsWith text "[" then ret text
  else
    let parts := Js.splitChar ":" text in
    if negb (List.length parts =? 3)%nat then ret text
    else
      tryCatch
        (key <- getOrGenerateMasterKey ;;
         decipher key (nth 0 parts EmptyString) (nth 1 parts EmptyString)
           (nth 2 parts EmptyString))
        (fun error =>
           logWith LError "Security: Decryption failed" (Some error) ;;
           throw error).

End Security.

(** How often a character occurs in a string. *)
Fixpoint countChar (c : ascii) (s : string) : nat :=
  match s with
  | EmptyString => O
  | String a s' => (if Ascii.eqb a c then 1 else 0) + countChar c s'
  end.

(** ** Snapshots of [ps]

    A line of a snapshot is white space only, or tokens with white space
    before, between and after them; a snapshot is its lines joined by line
    feeds. *)

Inductive SnapshotLine : Type :=
| BlankLine (blank : string)
| TokenLine (lead first : string) (more : list (string * string))
    (trail : string).

Definition textOfLine (l : SnapshotLine) : string :=
  match l with
  | BlankLine blank => blank
  | TokenLine lead first more trail => lead ++ spread first more ++ trail
  end.

Definition noLineFeed (s : string) : bool := Nat.eqb (countChar Js.LF s) 0.

Definition wellFormedLine (l : SnapshotLine) : bool :=
  noLineFeed (textOfLine l)
  && match l with
     | BlankLine blank => isBlank blank
     | TokenLine lead first more trail =>
         isBlank lead && isBlank trail && isToken first && wellSpaced more
     end.

Definition recordOfLine (l : SnapshotLine) : option ProcessInfo :=
  match l with
  | BlankLine _ => None
  | TokenLine _ first more _ => recordOfTokens first (map snd more)
  end.

Definition snapshotText (snapshot : list SnapshotLine) : string :=
  Js.join nl (map textOfLine snapshot).

Definition sampleSnapshot : list SnapshotLine :=
  [ TokenLine "  " "PID" [ (" ", "COMMAND"); (" ", "ARGS") ] EmptyString;
    TokenLine "  " "5678"
      [ ("   ", "Antigravity"); (tab ++ " ", "/usr/local/bin/Antigravity");
        ("  ", "--serve") ] (" " ++ tab);
    TokenLine " " "1" [ (" ", "init") ] EmptyString;
    TokenLine EmptyString "orphan" [] EmptyString;
    TokenLine EmptyString "9012"
      [ (" ", "antigravity-helper"); ("  ", "/opt/antigravity-helper") ]
      EmptyString;
    BlankLine " " ].

(** ** The timer of the cloud monitor (CloudMonitorService, [start] and
    [stop])

    The state is the static [intervalId] together with what the runtime
    holds: the interval timers that are set, each with its period, and the
    polls that [start] has started.  [poll] itself talks to services that
    are not part of this development; starting it is counted, its body and
    the firing of the timer are not modelled. *)

Module Monitor.

Record MonitorState : Type := mkMonitor {
  intervalId : option nat;        (* the static field; a timer handle *)
  timers : list (nat * Z);        (* interval timers set, with period *)
  nextTimer : nat;                (* the handle setInterval returns next *)
  pollsStarted : nat;             (* polls started by start() so far *)
  monitorLogs : list LogEntry
}.

Definition POLL_INTERVAL : Z := 1000 * 60 * 5.

Definition initial : MonitorState := mkMonitor None [] 0 0 [].

Definition start (s : MonitorState) : MonitorState :=
  match intervalId s with
  | Some _ => s
  | None =>
      {| intervalId := Some (nextTimer s);
         timers := (nextTimer s, POLL_INTERVAL) :: timers s;
         nextTimer := S (nextTimer s);
         pollsStarted := S (pollsStarted s);
         monitorLogs := (monitorLogs s
                    ++ [mkLog LInfo "Starting CloudMonitorService..." None])%list |}
  end.

(** [clearInterval(id)] *)
Definition clearInterval (id : nat) (l : list (nat * Z)) : list (nat * Z) :=
  filter (fun t => negb (Nat.eqb (fst t) id)) l.

Definition stop (s : MonitorState) : MonitorState :=
  match intervalId s with
  | Some id =>
      {| intervalId := None;
         timers := clearInterval id (timers s);
         nextTimer := nextTimer s;
         pollsStarted := pollsStarted s;
         monitorLogs := (monitorLogs s
                    ++ [mkLog LInfo "Stopped CloudMonitorService" None])%list |}
  | None => s
  end.

Inductive Op : Type := Start | Stop.

Definition step (s : MonitorState) (op : Op) : MonitorState :=
  match op with
  | Start => start s
  | Stop => stop s
  end.

(** Any sequence of calls, from the state at load time. *)
Definition run (ops : list Op) : MonitorState := fold_left step ops initial.

End Monitor.

(** * Properties *)

(** ** Sample runs of the pure code *)

Example parseInt_hex : Js.parseInt "  -0x1fz" = Js.Int (-31).
Proof. reflexivity. Qed.

Example split_ws_ends :
  Js.splitWhiteSpace " a   b " = [EmptyString; "a"; "b"; EmptyString].
Proof. reflexivity. Qed.

Example csv_sample :
  Csv.parseOutput
    (csvHeader ++ crlf
       ++ csvRow "1234" "App.exe" "C:\Program Files\App\App.exe --flag" ++ crlf)
  = [ {| pid := Js.Int 1234; name := "App.exe";
         cmd := "C:\Program Files\App\App.exe --flag" |} ].
Proof. reflexivity. Qed.

Example csv_lazy_split :
  Csv.matchRow (csvRow "7" ("a" ++ Csv.fieldSep ++ "b") "c")
  = Some ("7", "a", "b" ++ Csv.fieldSep ++ "c").
Proof. reflexivity. Qed.

Example ps_sample :
  Ps.parseOutput
    ("  PID COMMAND ARGS" ++ nl
       ++ " 5678   Antigravity    /opt/Antigravity/antigravity  --serve" ++ nl
       ++ "   12 bash /bin/bash" ++ nl)
  = [ {| pid := Js.Int 5678; name := "Antigravity";
         cmd := "Antigravity /opt/Antigravity/antigravity --serve" |} ].
Proof. reflexivity. Qed.

Example ps_placeholder_line :
  Ps.parseOutput "5678 App /usr/local/bin/App --serve" = [].
Proof. reflexivity. Qed.

Example winpath_sample :
  toWinPath "/mnt/c/Program Files/App/App.exe" = "C:\Program Files\App\App.exe".
Proof. reflexivity. Qed.

(** ** Sample runs of the handler *)

Example wait_returns_after_exit :
  outcome (_waitForProcessExit (linuxRunningFor 4) 10 5000 initialState)
  = Some (Ok tt, 1047%Z,
          [ psSnapshot; CallSetTimeout 500; psSnapshot; CallSetTimeout 500;
            psSnapshot ]).
Proof. reflexivity. Qed.

Example wait_times_out :
  outcome (_waitForProcessExit (linuxRunningFor 100) 10 1200 initialState)
  = Some (Throw timeoutError, 1548%Z,
          [ psSnapshot; CallSetTimeout 500; psSnapshot; CallSetTimeout 500;
            psSnapshot; CallSetTimeout 500 ]).
Proof. reflexivity. Qed.

Example close_kills_what_is_left :
  let (r, st) := closeAntigravity (linuxRunningFor 100) initialState in
  r = Ok tt /\ calls st = [ psSnapshot; CallKill (Js.Int 5678) ].
Proof. vm_compute. split; reflexivity. Qed.

Example start_when_running_launches_nothing :
  let (r, st) := startAntigravity (linuxRunningFor 100) true initialState in
  r = Ok tt /\ calls st = [ psSnapshot ].
Proof. vm_compute. split; reflexivity. Qed.

Example start_launches_by_uri :
  let (r, st) := startAntigravity (linuxRunningFor 0) true initialState in
  r = Ok tt /\
  calls st
  = [ psSnapshot; CallExecAsync ("xdg-open " ++ quoted protocolUri) ].
Proof. vm_compute. split; reflexivity. Qed.

(** ** Frame facts of the primitives *)

Lemma log_run (l : Level) (msg : string) (d : option JsError) (st : State) :
  logWith l msg d st
  = (Ok tt, mkState (now st) (requests st) (calls st)
                    (logs st ++ [mkLog l msg d])%list).
Proof. reflexivity. Qed.

Section HandlerFacts.

Variable host : Host.

(** The raw-output helper on [win32], request by request. *)
Lemma getRawOutput_win32_run (st : State) :
  isWin32 (platform host) = true ->
  getRawOutput host st =
    let cim := CallExecSync (psCommand "Get-CimInstance") in
    let wmi := CallExecSync (psCommand "Get-WmiObject") in
    match execSyncReply host (requests st) (psCommand "Get-CimInstance") with
    | (t1, Ok out) => (Ok out, record cim (Z.of_N t1) st)
    | (t1, Throw e) =>
        let st1 := record cim (Z.of_N t1) st in
        match execSyncReply host (requests st1) (psCommand "Get-WmiObject") with
        | (t2, Ok out) => (Ok out, record wmi (Z.of_N t2) st1)
        | (t2, Throw innerE) => (Throw e, record wmi (Z.of_N t2) st1)
        end
    end.
Proof.
  intros Hw. unfold getRawOutput, tryCatch, execSync. rewrite Hw.
  destruct (execSyncReply host (requests st) _) as [t1 [out | e]]; cbn -[psCommand].
  - reflexivity.
  - destruct (execSyncReply host (S (requests st)) _) as [t2 [out | e2]];
      reflexivity.
Qed.

Lemma getRawOutput_posix_run (st : State) :
  isWin32 (platform host) = false ->
  getRawOutput host st =
    match execSyncReply host (requests st) "ps -A -o pid,comm,args" with
    | (t, r) => (r, record (CallExecSync "ps -A -o pid,comm,args") (Z.of_N t) st)
    end.
Proof.
  intros Hw. unfold getRawOutput, execSync. rewrite Hw. reflexivity.
Qed.

(** Discovery in terms of the raw output: a failure is logged and turned
    into the empty list. *)
Lemma getRunning_run (st : State) :
  getRunningAntigravityProcesses host st =
    match getRawOutput host st with
    | (Ok output, st1) =>
        (Ok (classify (platform host) (currentPid host)
               (processList (platform host) output)), st1)
    | (Throw e, st1) =>
        (Ok [], snd (logWith LError "Failed to list processes" (Some e) st1))
    end.
Proof.
  unfold getRunningAntigravityProcesses, tryCatch, bind, ret.
  destruct (getRawOutput host st) as [[output | e] st1]; reflexivity.
Qed.

Lemma getRunning_returns (st : State) :
  exists procs st1, getRunningAntigravityProcesses host st = (Ok procs, st1).
Proof.
  rewrite getRunning_run.
  destruct (getRawOutput host st) as [[output | e] st1]; eauto.
Qed.

Lemma isProcessRunning_run (st : State) (procs : list ProcessInfo) (st1 : State) :
  getRunningAntigravityProcesses host st = (Ok procs, st1) ->
  isProcessRunning host st =
    (Ok (0 <? List.length procs)%nat,
     mkState (now st1) (requests st1) (calls st1)
             (logs st1 ++ pollLogs (0 <? List.length procs)%nat)%list).
Proof.
  intros Hg. unfold isProcessRunning, tryCatch, bind. rewrite Hg.
  destruct procs as [| p procs]; cbn; rewrite <- ?app_assoc; reflexivity.
Qed.

End HandlerFacts.

(** C1. [isProcessRunning] always returns, and returns [true] exactly when
    discovery followed by classification against the caller's pid is not
    empty; when the process query itself fails, discovery logs the failure
    and returns the empty list, and [isProcessRunning] returns [false]. *)
Theorem isProcessRunning_iff_found (host : Host) (st : State) :
  exists procs st1 running st2,
    getRunningAntigravityProcesses host st = (Ok procs, st1) /\
    isProcessRunning host st = (Ok running, st2) /\
    (running = true <-> procs <> []) /\
    match getRawOutput host st with
    | (Ok output, _) =>
        procs = classify (platform host) (currentPid host)
                  (processList (platform host) output)
    | (Throw e, st0) =>
        procs = [] /\ running = false /\
        logs st1
        = (logs st0 ++ [mkLog LError "Failed to list processes" (Some e)])%list
    end.
Proof.
  pose proof (getRunning_run host st) as Hrun.
  destruct (getRawOutput host st) as [[output | e] st0] eqn:Hraw.
  - eexists _, st0, _, _.
    split; [exact Hrun |].
    split; [apply isProcessRunning_run; exact Hrun |].
    split; [| reflexivity].
    destruct (classify _ _ _); cbn; split; congruence.
  - eexists [], _, false, _.
    split; [exact Hrun |].
    split; [apply (isProcessRunning_run host st []); exact Hrun |].
    split; [split; congruence |].
    repeat split.
Qed.

(** C6. On [win32] the raw-output helper sends the Get-CimInstance query
    first and the Get-WmiObject query only when the first one throws; when
    both throw, the error that leaves the helper is the first one. *)
Theorem getRawOutput_cim_then_wmi (host : Host) (st : State) :
  platform host = "win32" ->
  let cim := psCommand "Get-CimInstance" in
  let wmi := psCommand "Get-WmiObject" in
  let (r, st') := getRawOutput host st in
  match snd (execSyncReply host (requests st) cim) with
  | Ok out => r = Ok out /\ calls st' = (calls st ++ [CallExecSync cim])%list
  | Throw e =>
      calls st' = (calls st ++ [CallExecSync cim; CallExecSync wmi])%list /\
      match snd (execSyncReply host (S (requests st)) wmi) with
      | Ok out => r = Ok out
      | Throw innerE => r = Throw e
      end
  end.
Proof.
  intros Hp cim wmi.
  rewrite getRawOutput_win32_run by (unfold isWin32; rewrite Hp; reflexivity).
  subst cim wmi. cbv zeta.
  destruct (execSyncReply host (requests st) _) as [t1 [out | e]]; cbn -[psCommand].
  - split; reflexivity.
  - destruct (execSyncReply host (S (requests st)) _) as [t2 [out | e2]];
      cbn -[psCommand]; rewrite <- app_assoc; split; reflexivity.
Qed.

Lemma getRawOutput_cim_then_wmi_witness :
  platform winBothFail = "win32" /\
  fst (getRawOutput winBothFail initialState) = Throw "CIM unavailable".
Proof.
  split; [reflexivity |].
  pose proof (getRawOutput_cim_then_wmi winBothFail initialState eq_refl) as W.
  cbv zeta in W.
  destruct (getRawOutput winBothFail initialState) as [r st'].
  cbn -[psCommand] in W. destruct W as [_ W]. exact W.
Defined.

(** ** Termination with nothing left to kill *)

Lemma killCalls_record (c : Call) (t : Z) (st : State) :
  isKill c = false -> killCalls (record c t st) = killCalls st.
Proof.
  intros Hc. unfold killCalls, record; cbn.
  rewrite filter_app; cbn. rewrite Hc. apply app_nil_r.
Qed.

Lemma gracefulShutdown_returns (host : Host) (st : State) :
  exists st', gracefulShutdown host st = (Ok tt, st')
              /\ killCalls st' = killCalls st.
Proof.
  unfold gracefulShutdown, tryCatch, bind, execSync, sleep, log, logWith, ret.
  destruct (isDarwin (platform host)); [| destruct (isWin32 (platform host))];
    cbn;
    try (destruct (execSyncReply host (requests st) _) as [t [out | e]]; cbn);
    eexists; (split; [reflexivity |]);
    unfold killCalls; cbn; rewrite ?filter_app; cbn;
    rewrite ?app_nil_r; reflexivity.
Qed.

Lemma getRawOutput_no_kill (host : Host) (st : State) :
  killCalls (snd (getRawOutput host st)) = killCalls st.
Proof.
  destruct (isWin32 (platform host)) eqn:Hw.
  - rewrite getRawOutput_win32_run by assumption. cbv zeta.
    destruct (execSyncReply host (requests st) _) as [t1 [out | e]];
      cbn [snd].
    + apply killCalls_record. reflexivity.
    + destruct (execSyncReply host _ _) as [t2 [out | e2]]; cbn [snd];
        rewrite !killCalls_record; reflexivity.
  - rewrite getRawOutput_posix_run by assumption.
    destruct (execSyncReply host (requests st) _) as [t r]. cbn [snd].
    apply killCalls_record. reflexivity.
Qed.

Lemma getRunning_no_kill (host : Host) (st : State) :
  killCalls (snd (getRunningAntigravityProcesses host st)) = killCalls st.
Proof.
  rewrite getRunning_run.
  pose proof (getRawOutput_no_kill host st) as Hk.
  destruct (getRawOutput host st) as [[output | e] st1]; exact Hk.
Qed.

(** C3. When discovery and classification find nothing, [closeAntigravity]
    returns normally without a single per-pid kill (it sends no request at
    all after the discovery), and [isProcessRunning] reports [false] for
    the same discovery. *)
Theorem closeAntigravity_nothing_found (host : Host) (st : State) :
  fst (getRunningAntigravityProcesses host (verifyingState host st)) = Ok [] ->
  let (r, st') := closeAntigravity host st in
  r = Ok tt /\
  killCalls st' = killCalls st /\
  calls st'
  = calls (snd (getRunningAntigravityProcesses host (verifyingState host st))) /\
  fst (isProcessRunning host (verifyingState host st)) = Ok false.
Proof.
  unfold verifyingState. intros Hempty.
  unfold closeAntigravity. unfold bind at 1. unfold log at 1. rewrite log_run.
  unfold log at 1 in Hempty. rewrite log_run in Hempty. cbn [snd] in Hempty.
  unfold log at 2 3. rewrite !log_run. cbn [snd].
  set (st0 := mkState _ _ _ _) in *.
  destruct (gracefulShutdown_returns host st0) as (sv & Hg & Hkv).
  rewrite Hg in *. cbn [snd] in *.
  unfold tryCatch, bind at 1. rewrite Hg. unfold bind at 1.
  pose proof (getRunning_no_kill host sv) as Hkr.
  destruct (getRunningAntigravityProcesses host sv) as [r1 s1] eqn:Hr.
  cbn [fst snd] in *. subst r1. cbn -[isProcessRunning].
  fold st0. rewrite ?Hg, ?Hr. cbn [snd].
  repeat split.
  - fold (killCalls s1). rewrite Hkr, Hkv. reflexivity.
  - rewrite (isProcessRunning_run host sv [] s1 Hr). reflexivity.
Qed.

Lemma closeAntigravity_nothing_found_witness :
  fst (getRunningAntigravityProcesses macManagerOnly
         (verifyingState macManagerOnly initialState)) = Ok [] /\
  fst (closeAntigravity macManagerOnly initialState) = Ok tt /\
  killCalls (snd (closeAntigravity macManagerOnly initialState)) = [].
Proof.
  assert (H : fst (getRunningAntigravityProcesses macManagerOnly
                     (verifyingState macManagerOnly initialState)) = Ok [])
    by (vm_compute; reflexivity).
  split; [exact H |].
  pose proof (closeAntigravity_nothing_found macManagerOnly initialState H) as W.
  destruct (closeAntigravity macManagerOnly initialState) as [r st'].
  destruct W as (Hr & Hk & _). split; [exact Hr | exact Hk].
Defined.

(** ** Waiting for the exit *)

Lemma now_getRawOutput (host : Host) (st : State) :
  (now st <= now (snd (getRawOutput host st)))%Z.
Proof.
  destruct (isWin32 (platform host)) eqn:Hw.
  - rewrite getRawOutput_win32_run by assumption. cbv zeta.
    destruct (execSyncReply host (requests st) _) as [t1 [out | e]];
      cbn [snd].
    + unfold record; cbn. lia.
    + destruct (execSyncReply host _ _) as [t2 [out | e2]]; cbn [snd];
        unfold record; cbn; lia.
  - rewrite getRawOutput_posix_run by assumption.
    destruct (execSyncReply host (requests st) _) as [t r]. cbn [snd].
    unfold record; cbn. lia.
Qed.

Lemma isProcessRunning_returns (host : Host) (st : State) :
  exists running st1,
    isProcessRunning host st = (Ok running, st1) /\ (now st <= now st1)%Z.
Proof.
  pose proof (getRunning_run host st) as Hrun.
  pose proof (now_getRawOutput host st) as Hnow.
  destruct (getRawOutput host st) as [[output | e] st0];
    rewrite (isProcessRunning_run host st _ _ Hrun);
    eexists _, _; (split; [reflexivity |]); exact Hnow.
Qed.

Lemma afterRound_now (host : Host) (st : State) :
  (now st + 500 <= now (afterRound host st))%Z.
Proof.
  unfold afterRound.
  destruct (isProcessRunning_returns host st) as (b & st1 & Hp & Hnow).
  rewrite Hp. unfold sleep, record. cbn [snd now]. lia.
Qed.

Lemma afterRound_calls (host : Host) (st : State) :
  calls (afterRound host st)
  = (calls (snd (isProcessRunning host st)) ++ [CallSetTimeout 500])%list.
Proof. reflexivity. Qed.

Lemma afterRounds_S (host : Host) (k : nat) (st : State) :
  afterRounds host (S k) st = afterRound host (afterRounds host k st).
Proof.
  revert st. induction k as [| k IH]; intros st.
  - reflexivity.
  - change (afterRounds host (S (S k)) st)
      with (afterRounds host (S k) (afterRound host st)).
    rewrite IH. reflexivity.
Qed.

(** The loop, started at [st] with at most [m] turns of budget left before
    the deadline: it stops after some [n <= m] turns. *)
Lemma waitLoop_run (host : Host) (startTime timeoutMs : Z) (m : nat) :
  forall st,
    (timeoutMs - (now st - startTime) <= Z.of_nat m * 500)%Z ->
    exists n,
      (n <= m)%nat /\
      (forall k, (k < n)%nat ->
         (now (afterRounds host k st) - startTime < timeoutMs)%Z /\
         fst (isProcessRunning host (afterRounds host k st)) = Ok true) /\
      (forall fuel, (n < fuel)%nat ->
         waitLoop host fuel startTime timeoutMs st
         = Some (if (now (afterRounds host n st) - startTime <? timeoutMs)%Z
                 then (Ok tt, snd (isProcessRunning host (afterRounds host n st)))
                 else (Throw timeoutError, afterRounds host n st))) /\
      ((now (afterRounds host n st) - startTime < timeoutMs)%Z ->
       fst (isProcessRunning host (afterRounds host n st)) = Ok false).
Proof.
  induction m as [| m IH]; intros st Hm.
  - exists 0%nat. split; [lia |]. split; [intros k Hk; lia |].
    assert (Hlt : (now st - startTime <? timeoutMs)%Z = false)
      by (apply Z.ltb_ge; lia).
    split.
    + intros [| fuel] Hf; [lia |]. cbn. rewrite Hlt. reflexivity.
    + cbn. intros Hc. lia.
  - destruct (Z.ltb_spec (now st - startTime) timeoutMs) as [Hin | Hout].
    + destruct (isProcessRunning_returns host st) as (b & st1 & Hp & Hnow).
      destruct b.
      * pose proof (afterRound_now host st) as Hstep.
        destruct (IH (afterRound host st)) as (n & Hn & Hpolls & Hres & Hlast);
          [lia |].
        exists (S n). split; [lia |]. split; [| split].
        -- intros [| k] Hk.
           ++ cbn. rewrite Hp. split; [exact Hin | reflexivity].
           ++ cbn [afterRounds]. apply Hpolls. lia.
        -- intros [| fuel] Hf; [lia |].
           cbn [waitLoop afterRounds].
           apply Z.ltb_lt in Hin. rewrite Hin, Hp. cbn [negb].
           specialize (Hres fuel ltac:(lia)).
           assert (Har : afterRound host st = snd (sleep host 500 st1))
             by (unfold afterRound; rewrite Hp; reflexivity).
           rewrite Har in *. exact Hres.
        -- cbn [afterRounds]. exact Hlast.
      * exists 0%nat. split; [lia |]. split; [intros k Hk; lia |]. split.
        -- intros [| fuel] Hf; [lia |]. cbn [waitLoop afterRounds].
           apply Z.ltb_lt in Hin. rewrite Hin, Hp. reflexivity.
        -- intros _. cbn. rewrite Hp. reflexivity.
    + exists 0%nat. split; [lia |]. split; [intros k Hk; lia |].
      assert (Hlt : (now st - startTime <? timeoutMs)%Z = false)
        by (apply Z.ltb_ge; lia).
      split.
      * intros [| fuel] Hf; [lia |]. cbn. rewrite Hlt. reflexivity.
      * cbn. intros Hc. lia.
Qed.

(** C4. [_waitForProcessExit] polls [isProcessRunning] with one 500 ms
    timer between two polls, so two polls start at least 500 ms apart.  For
    some [n] the first [n] polls, all started before the deadline, report
    that the target is running; then either the next poll, still before the
    deadline, reports that it is gone and the function returns normally, or
    the deadline has passed and the function throws the timeout error.  It
    throws exactly when the deadline has passed with every poll reporting
    running.  Any fuel above [n] gives this result, and [n] is bounded by
    the number of 500 ms intervals in the timeout. *)
Theorem waitForProcessExit_polls (host : Host) (timeoutMs : Z) (st : State) :
  exists n : nat,
    (n <= Z.to_nat ((timeoutMs + 499) / 500))%nat /\
    (forall k, (k < n)%nat ->
       (now (afterRounds host k st) - now st < timeoutMs)%Z /\
       fst (isProcessRunning host (afterRounds host k st)) = Ok true) /\
    (forall k,
       calls (afterRounds host (S k) st)
       = (calls (snd (isProcessRunning host (afterRounds host k st)))
            ++ [CallSetTimeout 500])%list /\
       (now (afterRounds host k st) + 500
        <= now (afterRounds host (S k) st))%Z) /\
    (forall fuel, (n < fuel)%nat ->
       _waitForProcessExit host fuel timeoutMs st
       = Some (if (now (afterRounds host n st) - now st <? timeoutMs)%Z
               then (Ok tt, snd (isProcessRunning host (afterRounds host n st)))
               else (Throw timeoutError, afterRounds host n st))) /\
    ((now (afterRounds host n st) - now st < timeoutMs)%Z ->
     fst (isProcessRunning host (afterRounds host n st)) = Ok false) /\
    (forall fuel r st', (n < fuel)%nat ->
       _waitForProcessExit host fuel timeoutMs st = Some (r, st') ->
       (r = Throw timeoutError
        <-> (timeoutMs <= now (afterRounds host n st) - now st)%Z) /\
       (r = Ok tt
        <-> (now (afterRounds host n st) - now st < timeoutMs)%Z)).
Proof.
  destruct (waitLoop_run host (now st) timeoutMs
              (Z.to_nat ((timeoutMs + 499) / 500)) st)
    as (n & Hn & Hpolls & Hres & Hlast).
  { destruct (Z.le_gt_cases timeoutMs 0) as [Hle | Hgt].
    - assert (0 <= Z.of_nat (Z.to_nat ((timeoutMs + 499) / 500)))%Z by lia.
      lia.
    - rewrite Z2Nat.id by (apply Z.div_pos; lia).
      pose proof (Z.mul_succ_div_gt (timeoutMs + 499) 500 ltac:(lia)). lia. }
  exists n. split; [exact Hn |]. split; [exact Hpolls |]. split; [| split; [| split]].
  - intros k. rewrite afterRounds_S. split.
    + apply afterRound_calls.
    + apply afterRound_now.
  - exact Hres.
  - exact Hlast.
  - intros fuel r st' Hf Hrun. unfold _waitForProcessExit in Hrun.
    rewrite (Hres fuel Hf) in Hrun.
    destruct (Z.ltb_spec (now (afterRounds host n st) - now st) timeoutMs)
      as [Hin | Hout]; inversion Hrun; subst; split; split;
      intros; try discriminate; try lia; reflexivity.
Qed.

(** C10. With a timeout of zero or less [_waitForProcessExit] throws the
    timeout error at once: the loop condition is false before the first
    poll, so the state is untouched (no request, no log line), whatever the
    host would have answered. *)
Theorem waitForProcessExit_nonpositive
    (host : Host) (fuel : nat) (timeoutMs : Z) (st : State) :
  (timeoutMs <= 0)%Z ->
  _waitForProcessExit host (S fuel) timeoutMs st
  = Some (Throw timeoutError, st).
Proof.
  intros Hle. unfold _waitForProcessExit. cbn [waitLoop].
  assert (Hlt : (now st - now st <? timeoutMs)%Z = false)
    by (apply Z.ltb_ge; lia).
  rewrite Hlt. reflexivity.
Qed.

Lemma waitForProcessExit_nonpositive_witness :
  (0 <= 0)%Z /\
  fst (isProcessRunning linuxNothingWorks initialState) = Ok false /\
  _waitForProcessExit linuxNothingWorks 1 0 initialState
  = Some (Throw timeoutError, initialState).
Proof.
  split; [lia |]. split; [vm_compute; reflexivity |].
  apply (waitForProcessExit_nonpositive linuxNothingWorks 0 0 initialState).
  lia.
Defined.

(** ** Starting the application *)




(** The converse does not hold on native Linux, where the launcher is not
    awaited: the spawn of the executable fails, the failure is reported on
    the child only, and [startAntigravity] returns normally. *)
Example startAntigravity_linux_spawn_error_unseen :
  launchDispatchError linuxNothingWorks 2 = Some "spawn /bin/sh ENOENT" /\
  fst (isProcessRunning linuxNothingWorks
         (snd (log LInfo "Starting Antigravity..." initialState))) = Ok false /\
  fst (startAntigravity linuxNothingWorks true initialState) = Ok tt /\
  calls (snd (startAntigravity linuxNothingWorks true initialState))
  = [ CallExecSync "ps -A -o pid,comm,args";
      CallExecAsync ("xdg-open " ++ quoted "antigravity://oauth-success");
      CallExec (quoted "/opt/Antigravity/antigravity") ].
Proof. vm_compute. repeat split. Qed.

(** ** Classification *)

Lemma isTargetProcess_manager_path
    (platform : string) (callerPid : Z) (p : Js.Number) (n : string) :
  isTargetProcess platform callerPid (mkProcessInfo p n managerPath) = false /\
  isTargetProcess platform callerPid (mkProcessInfo p n antigravityManagerPath)
  = false.
Proof.
  unfold isTargetProcess; cbn [pid cmd].
  destruct (Js.strictEq p (Js.Int callerPid)); [split; reflexivity |].
  destruct (isWin32 platform), (isDarwin platform);
    split; vm_compute; reflexivity.
Qed.

(** C8. Whatever the records and the caller's pid, [classify] returns no
    record whose pid is the caller's and no record whose lower-cased
    command line contains [antigravity manager]; a record whose command
    line is the path of an App Manager (or Antigravity Manager) bundle is
    dropped from any list. *)
Theorem classify_excludes
    (platform : string) (callerPid : Z) (records more : list ProcessInfo)
    (p : Js.Number) (n : string) :
  Forall (fun r =>
            pid r <> Js.Int callerPid /\
            Js.includes (Js.toLowerCase (cmd r)) "antigravity manager" = false)
         (classify platform callerPid records) /\
  classify platform callerPid
    (records ++ mkProcessInfo p n managerPath :: more)%list
  = classify platform callerPid (records ++ more)%list /\
  classify platform callerPid
    (records ++ mkProcessInfo p n antigravityManagerPath :: more)%list
  = classify platform callerPid (records ++ more)%list.
Proof.
  split.
  - apply Forall_forall. intros r Hin.
    apply filter_In in Hin. destruct Hin as [_ Ht].
    unfold isTargetProcess in Ht.
    destruct (Js.strictEq (pid r) (Js.Int callerPid)) eqn:Heq;
      [discriminate |].
    destruct (Js.includes (Js.toLowerCase (cmd r)) "antigravity manager");
      [discriminate |].
    split; [| reflexivity].
    intros Hpid. rewrite Hpid in Heq. cbn in Heq.
    rewrite Z.eqb_refl in Heq. discriminate.
  - destruct (isTargetProcess_manager_path platform callerPid p n) as [H1 H2].
    unfold classify. rewrite !filter_app. cbn [filter].
    rewrite H1, H2. split; reflexivity.
Qed.

(** ** The WSL path rewrite *)

Lemma toUpperChar_code (c : ascii) :
  Js.isLowerAZ c = true ->
  (Js.code (Js.toUpperChar c) + 32 = Js.code c)%N.
Proof.
  unfold Js.toUpperChar. intros H. rewrite H.
  unfold Js.isLowerAZ in H. apply andb_prop in H. destruct H as [H1 H2].
  apply N.leb_le in H1, H2. unfold Js.code in *.
  rewrite N_ascii_embedding by lia. lia.
Qed.

Lemma replaceSlashes_length (s : string) :
  String.length (replaceSlashes s) = String.length s.
Proof. induction s as [| c s IH]; cbn; [| rewrite IH]; reflexivity. Qed.

Lemma replaceSlashes_get (s : string) (i : nat) :
  String.get i (replaceSlashes s)
  = option_map (fun c => if Ascii.eqb c "/" then Js.BS else c) (String.get i s).
Proof.
  revert i. induction s as [| c s IH]; intros i; [reflexivity |].
  destruct i as [| i]; cbn; [reflexivity | apply IH].
Qed.

Lemma replaceSlashes_no_slash (s : string) :
  Js.includes (replaceSlashes s) "/" = false.
Proof.
  induction s as [| c s IH]; [reflexivity |].
  cbn [replaceSlashes Js.includes]. rewrite IH.
  unfold Js.startsWith. cbn [Js.stripPrefix].
  destruct (Ascii.eqb_spec c "/") as [-> | Hne]; [reflexivity |].
  destruct (Ascii.eqb_spec "/" c) as [<- | _]; [congruence |].
  reflexivity.
Qed.

Lemma stripPrefix_Some (p s t : string) :
  Js.stripPrefix p s = Some t -> s = p ++ t.
Proof.
  revert s. induction p as [| a p IH]; intros s H.
  - cbn in H. inversion H. reflexivity.
  - destruct s as [| b s]; [discriminate |]. cbn in H.
    destruct (Ascii.eqb_spec a b) as [-> | _]; [| discriminate].
    cbn. f_equal. apply IH. exact H.
Qed.

Lemma stripPrefix_app (p s : string) : Js.stripPrefix p (p ++ s) = Some s.
Proof.
  induction p as [| a p IH]; [reflexivity |].
  cbn. rewrite Ascii.eqb_refl. exact IH.
Qed.

Lemma replaceDriveMount_cases (path : string) :
  replaceDriveMount path = path \/
  exists drive rest,
    Js.isLowerAZ drive = true /\
    path = "/mnt/" ++ String drive (String "/" rest).
Proof.
  unfold replaceDriveMount.
  destruct (Js.stripPrefix "/mnt/" path) as [tail |] eqn:Hs; [| now left].
  destruct tail as [| drive [| s rest]]; try now left.
  destruct (Ascii.eqb_spec s "/") as [-> | Hne].
  - destruct (Js.isLowerAZ drive) eqn:Hl; [| now left].
    right. exists drive, rest. split; [exact Hl |].
    apply stripPrefix_Some. exact Hs.
  - left. destruct s as [[] [] [] [] [] [] [] []]; try reflexivity.
    congruence.
Qed.

(** C9. The path rewrite is a function of the path alone.  A path that
    starts with [/mnt/], one letter of [a-z] and a slash gets that letter
    in upper case followed by a colon and a backslash in place of the
    mount prefix, and every slash of the remainder becomes a backslash (the
    rewrite keeps the length and changes no other character); any other
    path, a longer mount name or an upper-case letter included, only has
    its slashes replaced. *)
Theorem toWinPath_drive_mount (drive : ascii) (rest path : string) :
  toWinPath ("/mnt/" ++ String drive (String "/" rest))
  = (if Js.isLowerAZ drive
     then String (Js.toUpperChar drive)
            (String ":" (String Js.BS (replaceSlashes rest)))
     else replaceSlashes ("/mnt/" ++ String drive (String "/" rest))) /\
  (if Js.isLowerAZ drive
   then (Js.code (Js.toUpperChar drive) + 32)%N = Js.code drive
   else Js.toUpperChar drive = drive) /\
  String.length (replaceSlashes path) = String.length path /\
  (forall i,
     String.get i (replaceSlashes path)
     = option_map (fun c => if Ascii.eqb c "/" then Js.BS else c)
         (String.get i path)) /\
  Js.includes (replaceSlashes path) "/" = false /\
  (toWinPath path = replaceSlashes path \/
   exists d r, Js.isLowerAZ d = true /\ path = "/mnt/" ++ String d (String "/" r)) /\
  toWinPath "/mnt/cd/x" = bs ++ "mnt" ++ bs ++ "cd" ++ bs ++ "x" /\
  toWinPath "/mnt/C/x" = bs ++ "mnt" ++ bs ++ "C" ++ bs ++ "x" /\
  toWinPath "/mnt/c/Program Files/App/App.exe" = "C:\Program Files\App\App.exe".
Proof.
  split; [| split; [| split; [| split; [| split; [| split]]]]].
  - unfold toWinPath, replaceDriveMount. rewrite stripPrefix_app.
    cbv iota beta.
    destruct (Js.isLowerAZ drive) eqn:Hl; [| reflexivity].
    cbn [replaceSlashes].
    destruct (Ascii.eqb_spec (Js.toUpperChar drive) "/") as [Heq | _];
      [| reflexivity].
    pose proof (toUpperChar_code drive Hl) as Hc. rewrite Heq in Hc.
    unfold Js.isLowerAZ in Hl. apply andb_prop in Hl. destruct Hl as [H1 _].
    apply N.leb_le in H1. cbn in Hc. lia.
  - destruct (Js.isLowerAZ drive) eqn:Hl.
    + apply toUpperChar_code. exact Hl.
    + unfold Js.toUpperChar. rewrite Hl. reflexivity.
  - apply replaceSlashes_length.
  - apply replaceSlashes_get.
  - apply replaceSlashes_no_slash.
  - destruct (replaceDriveMount_cases path) as [H | H].
    + left. unfold toWinPath. rewrite H. reflexivity.
    + right. exact H.
  - repeat split.
Qed.

(** ** Shapes of strings *)



Lemma append_nil_r (s : string) : s ++ EmptyString = s.
Proof. induction s as [| c s IH]; cbn; [| rewrite IH]; reflexivity. Qed.

Lemma append_assoc (a b c : string) : (a ++ b) ++ c = a ++ (b ++ c).
Proof. induction a as [| x a IH]; cbn; [| rewrite IH]; reflexivity. Qed.

Lemma isDigit_facts (c : ascii) :
  Js.isDigit c = true ->
  Js.isWhiteSpace c = false /\ Js.isLineTerminator c = false /\
  Ascii.eqb c Js.DQ = false /\ Ascii.eqb c "x" = false /\
  Ascii.eqb c "X" = false /\ Ascii.eqb c "-" = false /\
  Ascii.eqb c "+" = false /\
  Js.digitValue 10 c = Some (Z.of_N (Js.code c) - 48)%Z.
Proof.
  destruct c as [[] [] [] [] [] [] [] []]; cbn; intros H;
    try discriminate H; repeat split.
Qed.

(** *** Trimming *)

Lemma trimStart_fixed (s : string) :
  Js.startsWithWhiteSpace s = false -> Js.trimStart s = s.
Proof.
  destruct s as [| c s]; [reflexivity |]. cbn. intros H. rewrite H. reflexivity.
Qed.

Lemma trimStart_blank (w s : string) :
  isBlank w = true -> Js.trimStart (w ++ s) = Js.trimStart s.
Proof.
  induction w as [| c w IH]; [reflexivity |].
  cbn. intros H. apply andb_prop in H. destruct H as [Hc Hw].
  rewrite Hc. apply IH. exact Hw.
Qed.

Lemma trimEnd_blank (w : string) : isBlank w = true -> Js.trimEnd w = EmptyString.
Proof.
  induction w as [| c w IH]; [reflexivity |].
  cbn. intros H. apply andb_prop in H. destruct H as [Hc Hw].
  rewrite (IH Hw), Hc. reflexivity.
Qed.

Lemma trimEnd_blank_tail (s w : string) :
  isBlank w = true -> Js.trimEnd (s ++ w) = Js.trimEnd s.
Proof.
  intros Hw. induction s as [| c s IH].
  - cbn. apply trimEnd_blank. exact Hw.
  - cbn. rewrite IH. reflexivity.
Qed.

Lemma trimEnd_fixed (s : string) :
  endsWithWhiteSpace s = false -> Js.trimEnd s = s.
Proof.
  induction s as [| c s IH]; [reflexivity |].
  destruct s as [| d s].
  - cbn. intros H. rewrite H. reflexivity.
  - intros H. change (endsWithWhiteSpace (String d s) = false) in H.
    specialize (IH H).
    change (Js.trimEnd (String c (String d s)))
      with (match Js.trimEnd (String d s) with
            | EmptyString => if Js.isWhiteSpace c then EmptyString
                             else String c EmptyString
            | r => String c r
            end).
    rewrite IH. reflexivity.
Qed.

Lemma endsWithWhiteSpace_app (a b : string) :
  nonEmpty b = true -> endsWithWhiteSpace (a ++ b) = endsWithWhiteSpace b.
Proof.
  intros Hb. induction a as [| c a IH]; [reflexivity |].
  cbn [append]. destruct (a ++ b) as [| d r] eqn:Hab.
  - destruct a; [cbn in Hab; subst b; discriminate | discriminate].
  - exact IH.
Qed.

Lemma trim_framed (lead body tail : string) :
  isBlank lead = true -> isBlank tail = true ->
  Js.startsWithWhiteSpace body = false -> endsWithWhiteSpace body = false ->
  nonEmpty body = true ->
  Js.trim (lead ++ body ++ tail) = body.
Proof.
  intros Hl Ht Hs He Hn. unfold Js.trim.
  rewrite trimStart_blank by exact Hl.
  rewrite trimStart_fixed.
  - rewrite trimEnd_blank_tail by exact Ht. apply trimEnd_fixed. exact He.
  - destruct body; [discriminate | exact Hs].
Qed.

(** *** Splitting into lines *)

Lemma isLineTerminator_chars (c : ascii) :
  Js.isLineTerminator c = false ->
  Ascii.eqb c Js.LF = false /\ Ascii.eqb c Js.CR = false.
Proof.
  destruct c as [[] [] [] [] [] [] [] []]; cbn; intros H;
    try discriminate H; split; reflexivity.
Qed.

Lemma splitLines_cons_plain (c : ascii) (s : string) :
  Js.isLineTerminator c = false ->
  Js.splitLines (String c s) = Js.consHead c (Js.splitLines s).
Proof.
  intros H. destruct (isLineTerminator_chars c H) as [Hlf Hcr].
  cbn [Js.splitLines]. rewrite Hlf, Hcr. destruct s; reflexivity.
Qed.

Lemma splitLines_plain (line : string) :
  isPlain line = true -> Js.splitLines line = [line].
Proof.
  induction line as [| c line IH]; [reflexivity |].
  cbn [isPlain allChars]. intros H. apply andb_prop in H. destruct H as [Hc Hl].
  apply negb_true_iff in Hc.
  rewrite splitLines_cons_plain by exact Hc.
  rewrite (IH Hl). reflexivity.
Qed.


(** *** One row of the structured query *)





Lemma decimalFrom_nonneg (ds : string) (acc : Z) :
  allChars Js.isDigit ds = true -> (0 <= acc)%Z -> (0 <= decimalFrom acc ds)%Z.
Proof.
  revert acc. induction ds as [| a ds IH]; intros acc Hd Hacc; [exact Hacc |].
  cbn in Hd. apply andb_prop in Hd. destruct Hd as [Ha Hd].
  cbn [decimalFrom]. apply IH; [exact Hd |].
  unfold Js.isDigit in Ha. apply andb_prop in Ha. destruct Ha as [Ha _].
  apply N.leb_le in Ha. lia.
Qed.

Lemma parseDigits_decimal (ds : string) (seen : bool) (acc : Z) :
  allChars Js.isDigit ds = true -> (seen || nonEmpty ds) = true ->
  Js.parseDigits 10 ds seen acc = Some (decimalFrom acc ds).
Proof.
  revert seen acc. induction ds as [| c ds IH]; intros seen acc Hd Hs.
  - cbn in *. rewrite orb_false_r in Hs. rewrite Hs. reflexivity.
  - cbn in Hd. apply andb_prop in Hd. destruct Hd as [Hc Hds].
    destruct (isDigit_facts c Hc) as (_ & _ & _ & _ & _ & _ & _ & Hv).
    cbn [Js.parseDigits decimalFrom]. rewrite Hv.
    apply IH; [exact Hds | reflexivity].
Qed.

Lemma parseInt_digits_number (ds : string) :
  isDigits ds = true ->
  Js.parseInt ds = Js.toNumber false (decimalValue ds).
Proof.
  unfold isDigits. intros H. apply andb_prop in H. destruct H as [Hne Hd].
  destruct ds as [| a ds]; [discriminate |].
  pose proof Hd as Hd'. cbn in Hd'. apply andb_prop in Hd'.
  destruct Hd' as [Ha Hds].
  destruct (isDigit_facts a Ha) as (Hws & _ & _ & _ & _ & Hm & Hp & _).
  unfold Js.parseInt. cbn [Js.trimStart]. rewrite Hws, Hm, Hp. cbn [orb].
  assert (Hu : Js.parseUnsigned (String a ds)
               = Js.parseDigits 10 (String a ds) false 0).
  { unfold Js.parseUnsigned. destruct ds as [| b ds]; [reflexivity |].
    cbn in Hds. apply andb_prop in Hds. destruct Hds as [Hb _].
    destruct (isDigit_facts b Hb) as (_ & _ & _ & Hx & HX & _).
    rewrite Hx, HX, andb_false_r. reflexivity. }
  rewrite Hu, parseDigits_decimal by (exact Hd || reflexivity).
  reflexivity.
Qed.

Lemma toNumber_exact (a : Z) :
  (a < 2 ^ 53)%Z -> Js.toNumber false a = Js.Int a.
Proof.
  intros H. unfold Js.toNumber, Js.roundMagnitude.
  apply Z.ltb_lt in H. rewrite H. reflexivity.
Qed.


(** *** The structured-query output as a whole *)





Lemma nonEmpty_app_r (a b : string) : nonEmpty b = true -> nonEmpty (a ++ b) = true.
Proof. destruct a; [trivial | reflexivity]. Qed.





(** *** Lines of the POSIX snapshot *)

Lemma splitWhiteSpace_nonempty (s : string) : Js.splitWhiteSpace s <> [].
Proof.
  induction s as [| c s IH]; [discriminate |].
  cbn. destruct (Js.isWhiteSpace c).
  - destruct (Js.startsWithWhiteSpace s); [exact IH | discriminate].
  - destruct (Js.splitWhiteSpace s); discriminate.
Qed.

Lemma splitWhiteSpace_token (t s : string) :
  allChars (fun c => negb (Js.isWhiteSpace c)) t = true ->
  Js.splitWhiteSpace (t ++ s)
  = match Js.splitWhiteSpace s with
    | p :: ps => (t ++ p) :: ps
    | [] => [t]
    end.
Proof.
  induction t as [| c t IH]; intros Ht.
  - cbn. destruct (Js.splitWhiteSpace s) eqn:Hs; [| reflexivity].
    destruct (splitWhiteSpace_nonempty s Hs).
  - cbn in Ht. apply andb_prop in Ht. destruct Ht as [Hc Ht].
    apply negb_true_iff in Hc.
    cbn [append Js.splitWhiteSpace]. rewrite Hc, (IH Ht).
    destruct (Js.splitWhiteSpace s); reflexivity.
Qed.

Lemma splitWhiteSpace_gap (g s : string) :
  isGap g = true -> Js.startsWithWhiteSpace s = false ->
  Js.splitWhiteSpace (g ++ s) = EmptyString :: Js.splitWhiteSpace s.
Proof.
  unfold isGap, isBlank. intros Hg Hs. apply andb_prop in Hg.
  destruct Hg as [Hne Hg].
  induction g as [| c g IH]; [discriminate |].
  cbn in Hg. apply andb_prop in Hg. destruct Hg as [Hc Hg].
  cbn [append Js.splitWhiteSpace]. rewrite Hc.
  destruct g as [| d g].
  - cbn [append]. rewrite Hs. reflexivity.
  - assert (Hd : Js.startsWithWhiteSpace (String d g ++ s) = true).
    { cbn in Hg. apply andb_prop in Hg. destruct Hg as [Hd _]. exact Hd. }
    rewrite Hd. apply IH; [reflexivity | exact Hg].
Qed.

Lemma token_ends (t : string) :
  allChars (fun c => negb (Js.isWhiteSpace c)) t = true ->
  endsWithWhiteSpace t = false.
Proof.
  induction t as [| c t IH]; [reflexivity |].
  cbn [allChars]. intros H. apply andb_prop in H. destruct H as [Hc Ht].
  apply negb_true_iff in Hc.
  destruct t as [| d t]; [exact Hc | exact (IH Ht)].
Qed.

Lemma spread_shape (first : string) (more : list (string * string)) :
  isToken first = true -> wellSpaced more = true ->
  nonEmpty (spread first more) = true /\
  Js.startsWithWhiteSpace (spread first more) = false /\
  endsWithWhiteSpace (spread first more) = false /\
  Js.splitWhiteSpace (spread first more) = first :: map snd more.
Proof.
  revert first. induction more as [| [g t] more IH]; intros first Hf Hm.
  - unfold isToken in Hf. apply andb_prop in Hf. destruct Hf as [Hne Hf].
    cbn [spread map]. repeat split.
    + exact Hne.
    + destruct first as [| c first]; [discriminate |].
      cbn in Hf. apply andb_prop in Hf. destruct Hf as [Hc _].
      apply negb_true_iff in Hc. exact Hc.
    + apply token_ends. exact Hf.
    + rewrite <- (append_nil_r first) at 1.
      rewrite splitWhiteSpace_token by exact Hf.
      cbn. rewrite append_nil_r. reflexivity.
  - cbn in Hm. apply andb_prop in Hm. destruct Hm as [Hgt Hm].
    apply andb_prop in Hgt. destruct Hgt as [Hg Ht].
    destruct (IH t Ht Hm) as (Hn & Hs & He & Hsplit).
    unfold isToken in Hf. apply andb_prop in Hf. destruct Hf as [Hne Hf].
    cbn [spread map snd]. repeat split.
    + apply nonEmpty_app_r, nonEmpty_app_r. exact Hn.
    + destruct first as [| c first]; [discriminate |].
      cbn in Hf. apply andb_prop in Hf. destruct Hf as [Hc _].
      apply negb_true_iff in Hc. exact Hc.
    + rewrite 2!endsWithWhiteSpace_app;
        [exact He | exact Hn | apply nonEmpty_app_r; exact Hn].
    + rewrite splitWhiteSpace_token by exact Hf.
      rewrite splitWhiteSpace_gap by assumption.
      rewrite append_nil_r, Hsplit. reflexivity.
Qed.

Lemma parseLine_spread (lead trail first : string) (more : list (string * string)) :
  isBlank lead = true -> isBlank trail = true ->
  isToken first = true -> wellSpaced more = true ->
  Ps.parseLine (lead ++ spread first more ++ trail)
  = recordOfTokens first (map snd more).
Proof.
  intros Hl Ht Hf Hm.
  destruct (spread_shape first more Hf Hm) as (Hn & Hs & He & Hsplit).
  unfold Ps.parseLine. rewrite trim_framed by assumption. rewrite Hsplit.
  unfold recordOfTokens.
  destruct more as [| [g t] more]; [reflexivity |].
  cbn [map snd List.length Nat.ltb Nat.leb hd tl nth].
  destruct (Js.parseInt first); reflexivity.
Qed.

Lemma collect_Forall {A B : Type} (f : A -> option B) (P : B -> Prop)
    (l : list A) :
  (forall x y, In x l -> f x = Some y -> P y) -> Forall P (collect f l).
Proof.
  induction l as [| x l IH]; intros H; [constructor |].
  cbn. destruct (f x) as [y |] eqn:Hx.
  - constructor.
    + apply (H x y); [left; reflexivity | exact Hx].
    + apply IH. intros x' y' Hin. apply H. right. exact Hin.
  - apply IH. intros x' y' Hin. apply H. right. exact Hin.
Qed.

Lemma parseLine_prefilter (line : string) (p : ProcessInfo) :
  Ps.parseLine line = Some p ->
  Js.includes (Js.toLowerCase (cmd p)) "antigravity" = true /\
  Js.isNaN (pid p) = false.
Proof.
  unfold Ps.parseLine.
  destruct (List.length _ <? 2)%nat; [discriminate |].
  destruct (Js.isNaN _) eqn:Hnan; [discriminate |].
  destruct (Js.includes _ _) eqn:Hinc; [| discriminate].
  intros H. inversion H. cbn. split; assumption.
Qed.

(** *** Rows whose name holds a quote

    The lazy first group stops at the first separator that is followed by
    a last field, so a row always matches, and its captures read back as
    the row. *)

Lemma length_app (a b : string) :
  String.length (a ++ b) = (String.length a + String.length b)%nat.
Proof. induction a as [| c a IH]; cbn; [| rewrite IH]; reflexivity. Qed.



Lemma includes_prefix (s p : string) :
  Js.startsWith s p = true -> Js.includes s p = true.
Proof. intros H. destruct s; cbn [Js.includes]; rewrite H; reflexivity. Qed.





(** *** The name of the application after classification *)

Lemma includes_decompose (s p : string) :
  Js.includes s p = true -> exists pre post, s = pre ++ p ++ post.
Proof.
  induction s as [| a s IH]; cbn [Js.includes]; intros H.
  - rewrite orb_false_r in H. unfold Js.startsWith in H.
    destruct (Js.stripPrefix p EmptyString) as [post |] eqn:Hs;
      [| discriminate].
    exists EmptyString, post. exact (stripPrefix_Some _ _ _ Hs).
  - apply orb_prop in H. destruct H as [H | H].
    + unfold Js.startsWith in H.
      destruct (Js.stripPrefix p (String a s)) as [post |] eqn:Hs;
        [| discriminate].
      exists EmptyString, post. exact (stripPrefix_Some _ _ _ Hs).
    + destruct (IH H) as (pre & post & ->).
      exists (String a pre), post. reflexivity.
Qed.

Lemma includes_compose (pre p post : string) :
  Js.includes (pre ++ p ++ post) p = true.
Proof.
  induction pre as [| a pre IH].
  - apply includes_prefix. unfold Js.startsWith. cbn [append].
    rewrite stripPrefix_app. reflexivity.
  - cbn [append Js.includes]. rewrite IH. apply orb_true_r.
Qed.

Lemma toLowerCase_app (a b : string) :
  Js.toLowerCase (a ++ b) = Js.toLowerCase a ++ Js.toLowerCase b.
Proof. induction a as [| c a IH]; cbn; [| rewrite IH]; reflexivity. Qed.

Lemma includes_toLowerCase (s p r : string) :
  Js.includes s (p ++ r) = true ->
  Js.includes (Js.toLowerCase s) (Js.toLowerCase p) = true.
Proof.
  intros H. destruct (includes_decompose s (p ++ r) H) as (pre & post & ->).
  rewrite !toLowerCase_app, append_assoc. apply includes_compose.
Qed.

Lemma isTargetProcess_names_antigravity
    (platform : string) (callerPid : Z) (p : ProcessInfo) :
  isTargetProcess platform callerPid p = true ->
  Js.includes (Js.toLowerCase (cmd p)) "antigravity" = true.
Proof.
  unfold isTargetProcess.
  destruct (Js.strictEq _ _); [discriminate |].
  destruct (Js.includes _ "antigravity manager"); [discriminate |].
  destruct (isWin32 platform); [| destruct (isDarwin platform)]; intros H;
    apply orb_prop in H; destruct H as [H | H];
    try (apply andb_prop in H; destruct H as [H _]);
    try exact H.
  - exact (includes_toLowerCase (cmd p) "Antigravity" ".exe" H).
  - exact (includes_toLowerCase (cmd p) "Antigravity" ".app" H).
  - apply (includes_toLowerCase (cmd p) "Antigravity" EmptyString).
    rewrite append_nil_r. exact H.
  - apply (includes_toLowerCase (cmd p) "Antigravity" EmptyString).
    rewrite append_nil_r. exact H.
Qed.

(** * Further properties of the handler *)

(** ** What a termination sends *)

Lemma killEach_run (host : Host) (targets : list ProcessInfo) :
  forall st,
    exists st',
      killEach host targets st = (Ok tt, st') /\
      calls st' = (calls st ++ killRequests targets)%list /\
      logs st' = logs st /\ now st' = now st.
Proof.
  induction targets as [| p targets IH]; intros st.
  - exists st. cbn. rewrite app_nil_r. repeat split.
  - cbn [killEach]. unfold bind at 1, tryCatch, kill, ret.
    set (st1 := record (CallKill (pid p)) 0 st).
    destruct (IH st1) as (st' & Hk & Hc & Hl & Hn).
    exists st'.
    destruct (killReply host (requests st) (pid p)) as [u | e];
      rewrite Hk; (split; [reflexivity |]);
      rewrite Hc, Hl, Hn; unfold st1, record; cbn [calls logs now];
      unfold killRequests; cbn [map]; rewrite <- app_assoc;
      repeat split; lia.
Qed.

Lemma gracefulShutdown_added (host : Host) (st : State) :
  exists st' added,
    gracefulShutdown host st = (Ok tt, st') /\
    calls st' = (calls st ++ added)%list /\
    forallb isGracefulStep added = true.
Proof.
  unfold gracefulShutdown, tryCatch, bind, execSync, sleep, log, logWith, ret,
    record.
  destruct (isDarwin (platform host)); [| destruct (isWin32 (platform host))];
    cbn -[Z.add];
    try (destruct (execSyncReply host (requests st) _) as [t [out | e]];
         cbn -[Z.add]).
  5: { exists st, []. rewrite app_nil_r. repeat split. }
  all: eexists; eexists; (split; [reflexivity |]); cbn [calls];
    rewrite <- ?app_assoc; cbn [app]; (split; [reflexivity |]);
    vm_compute; reflexivity.
Qed.

Lemma getRawOutput_added (host : Host) (st : State) :
  exists added,
    calls (snd (getRawOutput host st)) = (calls st ++ added)%list /\
    forallb isQuery added = true /\
    (1 <= List.length added <= 2)%nat /\
    (isWin32 (platform host) = false -> List.length added = 1%nat).
Proof.
  destruct (isWin32 (platform host)) eqn:Hw.
  - rewrite getRawOutput_win32_run by assumption. cbv zeta.
    destruct (execSyncReply host (requests st) _) as [t1 [out | e]];
      cbn [snd].
    + eexists [_]. split; [reflexivity |].
      split; [vm_compute; reflexivity |]. split; [cbn; lia | discriminate].
    + destruct (execSyncReply host _ _) as [t2 [out | e2]]; cbn [snd];
        eexists [_; _]; (split; [unfold record; cbn [calls];
                                 rewrite <- app_assoc; reflexivity |]);
        (split; [vm_compute; reflexivity |]); (split; [cbn; lia | discriminate]).
  - rewrite getRawOutput_posix_run by assumption.
    destruct (execSyncReply host (requests st) _) as [t r]. cbn [snd].
    eexists [_]. split; [reflexivity |].
    split; [vm_compute; reflexivity |]. split; [cbn; lia | reflexivity].
Qed.

Lemma getRunning_added (host : Host) (st : State) :
  exists added,
    calls (snd (getRunningAntigravityProcesses host st))
    = (calls st ++ added)%list /\
    forallb isQuery added = true /\
    (1 <= List.length added <= 2)%nat /\
    (isWin32 (platform host) = false -> List.length added = 1%nat).
Proof.
  rewrite getRunning_run.
  destruct (getRawOutput_added host st) as (added & Hc & Hq & Hl & Hp).
  exists added.
  destruct (getRawOutput host st) as [[output | e] st1]; cbn [snd] in *;
    repeat split; auto; lia.
Qed.

(** ** What the row pattern accepts *)

Lemma takeDigits_inv (s ds rest : string) :
  Csv.takeDigits s = (ds, rest) ->
  s = ds ++ rest /\ allChars Js.isDigit ds = true.
Proof.
  revert ds rest. induction s as [| a s IH]; intros ds rest H.
  - cbn in H. inversion H. split; reflexivity.
  - cbn in H. destruct (Js.isDigit a) eqn:Ha.
    + destruct (Csv.takeDigits s) as [ds' rest'] eqn:Ht.
      inversion H; subst. destruct (IH ds' rest eq_refl) as [Hs Hd].
      split; [cbn; rewrite <- Hs; reflexivity |].
      cbn. rewrite Ha, Hd. reflexivity.
    + inversion H. split; reflexivity.
Qed.

Lemma matchLastField_inv (s c : string) :
  Csv.matchLastField s = Some c -> s = c ++ q /\ isPlain c = true.
Proof.
  revert c. induction s as [| a s IH]; intros c H; [discriminate |].
  cbn [Csv.matchLastField] in H. destruct s as [| b s].
  - destruct (Ascii.eqb_spec a Js.DQ) as [-> | _]; [| discriminate].
    inversion H. split; reflexivity.
  - destruct (Js.isLineTerminator a) eqn:Ha; [discriminate |].
    destruct (Csv.matchLastField (String b s)) as [c' |] eqn:Hm;
      [| discriminate].
    cbn in H. inversion H; subst.
    destruct (IH c' eq_refl) as [Hs Hp].
    split; [cbn [append]; rewrite <- Hs; reflexivity |].
    cbn [isPlain allChars]. rewrite Ha. exact Hp.
Qed.

Lemma matchFields_inv (s n c : string) :
  Csv.matchFields s = Some (n, c) ->
  s = n ++ Csv.fieldSep ++ c ++ q /\ isPlain n = true /\ isPlain c = true.
Proof.
  revert n c. induction s as [| a s IH]; intros n c H.
  - cbn in H. discriminate.
  - cbn [Csv.matchFields] in H.
    destruct (Js.stripPrefix Csv.fieldSep (String a s)) as [rest |] eqn:Hs.
    + destruct (Csv.matchLastField rest) as [c0 |] eqn:Hl.
      * cbn in H. inversion H; subst.
        apply stripPrefix_Some in Hs.
        destruct (matchLastField_inv rest c Hl) as [Hr Hp].
        rewrite Hs, Hr. repeat split. exact Hp.
      * cbn [option_map] in H.
        destruct (Js.isLineTerminator a) eqn:Ha; [discriminate |].
        destruct (Csv.matchFields s) as [[n' c'] |]; [| discriminate].
        inversion H; subst. destruct (IH n' c eq_refl) as (Hs' & Hn & Hc).
        split; [cbn [append]; rewrite <- Hs'; reflexivity |].
        split; [cbn [isPlain allChars]; rewrite Ha; exact Hn | exact Hc].
    + destruct (Js.isLineTerminator a) eqn:Ha; [discriminate |].
      destruct (Csv.matchFields s) as [[n' c'] |]; [| discriminate].
      inversion H; subst. destruct (IH n' c eq_refl) as (Hs' & Hn & Hc).
      split; [cbn [append]; rewrite <- Hs'; reflexivity |].
      split; [cbn [isPlain allChars]; rewrite Ha; exact Hn | exact Hc].
Qed.

Lemma matchRow_inv (line ds n c : string) :
  Csv.matchRow line = Some (ds, n, c) ->
  line = csvRow ds n c /\ isDigits ds = true /\
  isPlain n = true /\ isPlain c = true.
Proof.
  unfold Csv.matchRow. destruct line as [| a line]; [discriminate |].
  destruct (Ascii.eqb_spec a Js.DQ) as [-> | _]; [| discriminate].
  destruct (Csv.takeDigits line) as [ds' rest] eqn:Ht.
  destruct (takeDigits_inv line ds' rest Ht) as [Hl Hd].
  destruct ds' as [| d ds']; [discriminate |].
  destruct (Js.stripPrefix Csv.fieldSep rest) as [rest' |] eqn:Hs;
    [| discriminate].
  destruct (Csv.matchFields rest') as [[n' c'] |] eqn:Hm; [| discriminate].
  intros H. inversion H; subst ds n' c'.
  apply stripPrefix_Some in Hs.
  destruct (matchFields_inv rest' n c Hm) as (Hr & Hn & Hc).
  split; [| split; [| split; assumption]].
  - unfold csvRow. rewrite Hl, Hs, Hr. reflexivity.
  - unfold isDigits. rewrite Hd. reflexivity.
Qed.

Lemma roundMagnitude_nonneg (a m : Z) :
  (0 <= a)%Z -> Js.roundMagnitude a = Some m -> (0 <= m)%Z.
Proof.
  intros Ha. unfold Js.roundMagnitude.
  destruct (a <? 2 ^ 53)%Z; [intros H; inversion H; subst; exact Ha |].
  cbv zeta. set (e := (Z.log2 a - 52)%Z). set (q := (a / 2 ^ e)%Z).
  assert (Hp : (0 <= 2 ^ e)%Z) by apply Z.pow_nonneg, Z.lt_le_incl, Z.lt_0_2.
  assert (Hq : (0 <= q)%Z).
  { unfold q. destruct (Z.eq_dec (2 ^ e) 0) as [Hz | Hz].
    - rewrite Hz. rewrite Z.div_0_r. apply Z.le_refl.
    - apply Z.div_pos; [exact Ha | lia]. }
  match goal with
  | |- context [if ?b then (q + 1)%Z else q] =>
      set (q' := if b then (q + 1)%Z else q);
      assert (Hq' : (0 <= q')%Z) by (unfold q'; destruct b; lia)
  end.
  destruct (2 ^ 1024 <=? q' * 2 ^ e)%Z; [discriminate |].
  intros H. inversion H.
  apply Z.mul_nonneg_nonneg; assumption.
Qed.

Lemma toNumber_nonneg (a : Z) :
  (0 <= a)%Z ->
  Js.isNaN (Js.toNumber false a) = false /\
  Js.isNegative (Js.toNumber false a) = false.
Proof.
  intros Ha. unfold Js.toNumber.
  destruct (Js.roundMagnitude a) as [m |] eqn:Hm; [| split; reflexivity].
  split; [reflexivity |]. cbn [Js.isNegative].
  apply Z.ltb_ge. exact (roundMagnitude_nonneg a m Ha Hm).
Qed.

Lemma parseRow_inv (line : string) (p : ProcessInfo) :
  Csv.parseRow line = Some p ->
  exists ds n c,
    line = csvRow ds n c /\ isDigits ds = true /\
    isPlain n = true /\ isPlain c = true /\
    p = {| pid := Js.toNumber false (decimalValue ds); name := n;
           cmd := match c with EmptyString => n | _ => c end |} /\
    (0 <= decimalValue ds)%Z.
Proof.
  unfold Csv.parseRow. destruct line as [| a line]; [discriminate |].
  destruct (Csv.matchRow (String a line)) as [[[ds n] c] |] eqn:Hm;
    [| discriminate].
  intros H. destruct (matchRow_inv _ ds n c Hm) as (Hl & Hd & Hn & Hc).
  exists ds, n, c. rewrite (parseInt_digits_number ds Hd) in H. inversion H.
  repeat split; try assumption.
  unfold isDigits in Hd. apply andb_prop in Hd. destruct Hd as [_ Hd].
  apply decimalFrom_nonneg; [exact Hd | lia].
Qed.

(** The pid of a row is a JavaScript number: a run of digits from 2^53 on
    is rounded to the nearest double, and past the largest double it is
    [Infinity]. *)
Example parseRow_rounds_large_pid :
  Csv.parseRow (csvRow "9007199254740993" "Antigravity.exe" "")
  = Some {| pid := Js.Int 9007199254740992; name := "Antigravity.exe";
            cmd := "Antigravity.exe" |}.
Proof. vm_compute. reflexivity. Qed.

Example toNumber_overflows :
  Js.toNumber false (10 ^ 309) = Js.Infinity false /\
  Js.toNumber true (10 ^ 309) = Js.Infinity true /\
  Js.toNumber false (2 ^ 1024 - 2 ^ 970 - 1) = Js.Int (2 ^ 1024 - 2 ^ 971).
Proof. vm_compute. repeat split. Qed.

(** X7. A record of the structured-query parser always comes from a line
    that reads back from it: the line is an opening quote, the digits of
    the pid, and the two further fields between quotes and commas, none of
    them with a line break; a line of any other shape gives no record.
    The name and the command line of the record are those fields; its pid
    is the double nearest to the value of the digits, which is that value
    itself only below 2^53. *)
Theorem csv_record_reads_back (output : string) :
  Forall (fun p =>
            exists ds n c,
              In (csvRow ds n c) (tl (Js.splitLines (Js.trim output))) /\
              isDigits ds = true /\ isPlain n = true /\ isPlain c = true /\
              name p = n /\
              cmd p = match c with EmptyString => n | _ => c end /\
              pid p = Js.parseInt ds /\
              pid p = Js.toNumber false (decimalValue ds) /\
              ((decimalValue ds < 2 ^ 53)%Z ->
               pid p = Js.Int (decimalValue ds)))
         (Csv.parseOutput output).
Proof.
  unfold Csv.parseOutput. apply collect_Forall. intros line p Hin Hp.
  destruct (parseRow_inv line p Hp) as (ds & n & c & Hl & Hd & Hn & Hc & Hr & _).
  exists ds, n, c. subst line p. cbn [pid name cmd].
  repeat split; try assumption.
  - symmetry. apply parseInt_digits_number. exact Hd.
  - apply toNumber_exact.
Qed.

(** ** Pids of the discovered records *)

Lemma processList_pid (platform output : string) :
  Forall (fun p =>
            Js.isNaN (pid p) = false /\
            (isWin32 platform = true -> Js.isNegative (pid p) = false))
         (processList platform output).
Proof.
  unfold processList. destruct (isWin32 platform).
  - unfold Csv.parseOutput. apply collect_Forall. intros line p _ Hp.
    destruct (parseRow_inv line p Hp) as (ds & n & c & _ & _ & _ & _ & -> & Hz).
    cbn [pid]. destruct (toNumber_nonneg _ Hz) as [Hnan Hneg].
    split; [exact Hnan | intros _; exact Hneg].
  - unfold Ps.parseOutput. apply collect_Forall. intros line p _ Hp.
    destruct (parseLine_prefilter line p Hp) as [_ Hnan].
    split; [exact Hnan | discriminate].
Qed.

Lemma classify_pid (platform : string) (callerPid : Z) (output : string) :
  Forall (fun p =>
            Js.isNaN (pid p) = false /\
            Js.strictEq (pid p) (Js.Int callerPid) = false /\
            (isWin32 platform = true -> Js.isNegative (pid p) = false))
         (classify platform callerPid (processList platform output)).
Proof.
  apply Forall_forall. intros p Hin. apply filter_In in Hin.
  destruct Hin as [Hin Ht].
  pose proof (processList_pid platform output) as Hall.
  rewrite Forall_forall in Hall. destruct (Hall p Hin) as (Hnan & Hneg).
  split; [exact Hnan |]. split; [| exact Hneg].
  unfold isTargetProcess in Ht.
  destruct (Js.strictEq (pid p) (Js.Int callerPid)); [discriminate |].
  reflexivity.
Qed.

(** X6. The pid of every record discovery returns is a number, never NaN,
    that is not strictly equal to the pid of the caller; on [win32] it is
    not negative.  It need not be an integer the host can address: a long
    run of digits reads as a rounded double or as [Infinity], and off
    [win32] the pid column may read as zero or as a negative number.  When
    the query fails there is no record at all. *)
Theorem discovered_pids (host : Host) (st : State) :
  exists procs st1,
    getRunningAntigravityProcesses host st = (Ok procs, st1) /\
    match fst (getRawOutput host st) with
    | Ok output =>
        procs = classify (platform host) (currentPid host)
                  (processList (platform host) output)
    | Throw _ => procs = []
    end /\
    Forall (fun p =>
              Js.isNaN (pid p) = false /\
              Js.strictEq (pid p) (Js.Int (currentPid host)) = false /\
              (isWin32 (platform host) = true ->
               Js.isNegative (pid p) = false))
           procs.
Proof.
  rewrite getRunning_run.
  destruct (getRawOutput host st) as [[output | e] st1]; cbn [fst].
  - eexists _, _. split; [reflexivity |]. split; [reflexivity |].
    apply classify_pid.
  - eexists _, _. split; [reflexivity |]. split; [reflexivity |].
    constructor.
Qed.

(** ** The whole of a termination *)

Lemma closeAntigravity_run (host : Host) (st : State) :
  exists procs s1 st',
    getRunningAntigravityProcesses host (verifyingState host st)
    = (Ok procs, s1) /\
    closeAntigravity host st = (Ok tt, st') /\
    calls st' = (calls s1 ++ killRequests procs)%list.
Proof.
  pose proof (log_run LInfo "Closing Antigravity..." None st) as Hlog.
  fold (log LInfo "Closing Antigravity...") in Hlog.
  set (st0 := mkState _ _ _ _) in Hlog.
  destruct (gracefulShutdown_added host st0) as (sv & g & Hg & _).
  destruct (getRunning_returns host sv) as (procs & s1 & Hr).
  assert (Hv : verifyingState host st = sv)
    by (unfold verifyingState; rewrite Hlog; cbn [snd]; rewrite Hg;
        reflexivity).
  exists procs, s1. rewrite Hv.
  assert (Hbody : forall st',
            (if (List.length procs =? 0)%nat
             then log LInfo "No Antigravity processes found running."
             else (log LInfo "Found remaining Antigravity processes. Killing..." ;;
                   killEach host procs)) s1 = (Ok tt, st') ->
            closeAntigravity host st = (Ok tt, st')).
  { intros st' Hb. unfold closeAntigravity. unfold bind at 1. rewrite Hlog.
    unfold tryCatch, bind at 1. rewrite Hg. unfold bind at 1. rewrite Hr.
    cbv beta iota. rewrite Hb. reflexivity. }
  destruct procs as [| p procs].
  - eexists. split; [exact Hr |]. split; [apply Hbody; reflexivity |].
    cbn. rewrite app_nil_r. reflexivity.
  - pose proof (log_run LInfo "Found remaining Antigravity processes. Killing..."
                  None s1) as Hl2.
    fold (log LInfo "Found remaining Antigravity processes. Killing...") in Hl2.
    set (s2 := mkState _ _ _ _) in Hl2.
    destruct (killEach_run host (p :: procs) s2) as (st' & Hk & Hc & _).
    exists st'. split; [exact Hr |]. split; [| exact Hc].
    apply Hbody. cbn [List.length Nat.eqb]. unfold bind at 1.
    rewrite Hl2. exact Hk.
Qed.

Lemma forallb_impl {A : Type} (f g : A -> bool) (l : list A) :
  (forall x, f x = true -> g x = true) ->
  forallb f l = true -> forallb g l = true.
Proof.
  intros Hfg. induction l as [| x l IH]; [reflexivity |].
  cbn. intros H. apply andb_prop in H. destruct H as [Hx Hl].
  rewrite (Hfg x Hx), (IH Hl). reflexivity.
Qed.

Lemma isGracefulStep_not_fallback (c : Call) :
  isGracefulStep c = true -> negb (isFallbackKill c) = true.
Proof.
  destruct c as [command | | | |]; try (intros; reflexivity).
  cbn [isGracefulStep]. intros H. apply orb_prop in H.
  destruct H as [H | H]; apply String.eqb_eq in H; subst; reflexivity.
Qed.

Lemma isQuery_not_fallback (c : Call) :
  isQuery c = true -> negb (isFallbackKill c) = true.
Proof.
  destruct c as [command | | | |]; try discriminate.
  cbn [isQuery]. intros H. apply orb_prop in H. destruct H as [H | H];
    [apply orb_prop in H; destruct H as [H | H] |];
    apply String.eqb_eq in H; subst; reflexivity.
Qed.

Lemma killRequests_not_fallback (targets : list ProcessInfo) :
  forallb (fun c => negb (isFallbackKill c)) (killRequests targets) = true.
Proof. induction targets as [| p targets IH]; [reflexivity | exact IH]. Qed.

(** X1. [closeAntigravity] returns normally on every host, and the kill
    by name of its outer [catch] ([taskkill /F] or [pkill -9]) is never
    sent: nothing inside the [try] block throws, so the handler is never
    reached. *)
Theorem closeAntigravity_never_falls_back (host : Host) (st : State) :
  exists st' added,
    closeAntigravity host st = (Ok tt, st') /\
    calls st' = (calls st ++ added)%list /\
    forallb (fun c => negb (isFallbackKill c)) added = true.
Proof.
  destruct (closeAntigravity_run host st) as (procs & s1 & st' & Hr & Hc & Hk).
  unfold verifyingState in Hr. unfold log in Hr. rewrite log_run in Hr.
  cbn [snd] in Hr. set (st0 := mkState _ _ _ _) in Hr.
  destruct (gracefulShutdown_added host st0) as (sv & g & Hg & Hcg & Hgs).
  rewrite Hg in Hr. cbn [snd] in Hr.
  destruct (getRunning_added host sv) as (qs & Hcq & Hqs & _).
  rewrite Hr in Hcq. cbn [snd] in Hcq.
  exists st', (g ++ qs ++ killRequests procs)%list.
  split; [exact Hc |]. split.
  - rewrite Hk, Hcq, Hcg. unfold st0. cbn [calls].
    rewrite <- !app_assoc. reflexivity.
  - rewrite !forallb_app.
    rewrite (forallb_impl _ _ g isGracefulStep_not_fallback Hgs).
    rewrite (forallb_impl _ _ qs isQuery_not_fallback Hqs).
    rewrite killRequests_not_fallback. reflexivity.
Qed.

(** X2. After the discovery of its verifying stage [closeAntigravity]
    sends exactly one [process.kill] per record found, in the order of the
    records and nothing else, whatever the host answers to each kill: a
    kill that throws stops nothing. *)
Theorem closeAntigravity_kills_each (host : Host) (st : State) :
  exists procs s1 st',
    getRunningAntigravityProcesses host (verifyingState host st)
    = (Ok procs, s1) /\
    closeAntigravity host st = (Ok tt, st') /\
    calls st' = (calls s1 ++ map (fun p => CallKill (pid p)) procs)%list /\
    List.length (killCalls st')
    = (List.length (killCalls st) + List.length procs)%nat.
Proof.
  destruct (closeAntigravity_run host st) as (procs & s1 & st' & Hr & Hc & Hk).
  exists procs, s1, st'. split; [exact Hr |]. split; [exact Hc |].
  split; [exact Hk |].
  pose proof (getRunning_no_kill host (verifyingState host st)) as Hnk.
  rewrite Hr in Hnk. cbn [snd] in Hnk.
  destruct (gracefulShutdown_returns host
              (snd (log LInfo "Closing Antigravity..." st)))
    as (sv & Hg & Hkv).
  unfold verifyingState in Hnk. rewrite Hg in Hnk. cbn [snd] in Hnk.
  unfold killCalls at 1. rewrite Hk, filter_app, List.length_app.
  fold (killCalls s1). rewrite Hnk, Hkv. f_equal.
  unfold killRequests. clear. induction procs as [| p procs IH];
    [reflexivity | cbn; rewrite IH; reflexivity].
Qed.

(** X3. Every [process.kill] of a termination is aimed at the pid of a
    discovered record: the target is a number, never NaN, and it is not
    strictly equal to [process.pid]; on [win32] it is not negative.
    Nothing more is checked of it: off [win32] a pid column that reads as
    zero or as a negative number is sent to [process.kill] as it is, and
    so is a pid that reads as [Infinity]. *)
Theorem closeAntigravity_kill_targets (host : Host) (st : State) :
  exists st' added,
    closeAntigravity host st = (Ok tt, st') /\
    calls st' = (calls st ++ added)%list /\
    Forall (fun c =>
              match c with
              | CallKill target =>
                  Js.isNaN target = false /\
                  Js.strictEq target (Js.Int (currentPid host)) = false /\
                  (isWin32 (platform host) = true ->
                   Js.isNegative target = false)
              | _ => True
              end) added.
Proof.
  destruct (closeAntigravity_run host st) as (procs & s1 & st' & Hr & Hc & Hk).
  pose proof (log_run LInfo "Closing Antigravity..." None st) as Hlog.
  fold (log LInfo "Closing Antigravity...") in Hlog.
  set (st0 := mkState _ _ _ _) in Hlog.
  destruct (gracefulShutdown_added host st0) as (sv & g & Hg & Hcg & Hgs).
  assert (Hv : verifyingState host st = sv)
    by (unfold verifyingState; rewrite Hlog; cbn [snd]; rewrite Hg;
        reflexivity).
  rewrite Hv in Hr.
  destruct (getRunning_added host sv) as (qs & Hcq & Hqs & _).
  rewrite Hr in Hcq. cbn [snd] in Hcq.
  exists st', (g ++ qs ++ killRequests procs)%list.
  split; [exact Hc |]. split.
  - rewrite Hk, Hcq, Hcg. unfold st0. cbn [calls].
    rewrite <- !app_assoc. reflexivity.
  - apply Forall_app. split; [| apply Forall_app; split].
    + apply Forall_forall. intros c Hin.
      rewrite forallb_forall in Hgs. specialize (Hgs c Hin).
      destruct c; try exact I. discriminate.
    + apply Forall_forall. intros c Hin.
      rewrite forallb_forall in Hqs. specialize (Hqs c Hin).
      destruct c; try exact I. discriminate.
    + rewrite getRunning_run in Hr.
      assert (Hp : Forall (fun p =>
                             Js.isNaN (pid p) = false /\
                             Js.strictEq (pid p) (Js.Int (currentPid host))
                             = false /\
                             (isWin32 (platform host) = true ->
                              Js.isNegative (pid p) = false)) procs).
      { destruct (getRawOutput host sv) as [[output | e] s0];
          inversion Hr; subst; [| constructor].
        apply classify_pid. }
      unfold killRequests. apply Forall_map. exact Hp.
Qed.

(** Off [win32] nothing keeps a zero or a negative pid column out of
    [process.kill]. *)
Example closeAntigravity_kills_what_the_snapshot_shows :
  fst (closeAntigravity linuxOddPids initialState) = Ok tt /\
  calls (snd (closeAntigravity linuxOddPids initialState))
  = [ psSnapshot; CallKill (Js.Int 0); CallKill (Js.Int (-1)) ].
Proof. vm_compute. repeat split. Qed.

(** X4. The graceful stage never throws.  On macOS it sends the
    AppleScript quit request and, only when that request succeeded, waits
    2000 ms (at least) before it hands over; on Windows it does the same
    with [taskkill /IM] and 1000 ms; a failed request means no pause at
    all.  On any other platform the stage does nothing. *)
Theorem gracefulShutdown_stage (host : Host) (st : State) :
  exists st',
    gracefulShutdown host st = (Ok tt, st') /\
    if isDarwin (platform host) then
      match snd (execSyncReply host (requests st) osascriptCommand) with
      | Ok _ =>
          calls st' = (calls st ++ [CallExecSync osascriptCommand;
                                    CallSetTimeout 2000])%list /\
          (now st + 2000 <= now st')%Z
      | Throw _ =>
          calls st' = (calls st ++ [CallExecSync osascriptCommand])%list
      end
    else if isWin32 (platform host) then
      match snd (execSyncReply host (requests st) taskkillCommand) with
      | Ok _ =>
          calls st' = (calls st ++ [CallExecSync taskkillCommand;
                                    CallSetTimeout 1000])%list /\
          (now st + 1000 <= now st')%Z
      | Throw _ =>
          calls st' = (calls st ++ [CallExecSync taskkillCommand])%list
      end
    else st' = st.
Proof.
  unfold gracefulShutdown, tryCatch, bind, execSync, sleep, log, logWith, ret,
    record.
  destruct (isDarwin (platform host)); [| destruct (isWin32 (platform host))].
  - change ("osascript -e 'tell application " ++ quoted "Antigravity"
              ++ " to quit'") with osascriptCommand.
    cbn -[Z.add osascriptCommand].
    destruct (execSyncReply host (requests st) osascriptCommand)
      as [t [out | e]]; cbn -[Z.add osascriptCommand];
      eexists; (split; [reflexivity |]); cbn [calls now];
      rewrite <- ?app_assoc; [split; [reflexivity | lia] | reflexivity].
  - change ("taskkill /IM " ++ quoted "Antigravity.exe" ++ " /T")
      with taskkillCommand.
    cbn -[Z.add taskkillCommand].
    destruct (execSyncReply host (requests st) taskkillCommand)
      as [t [out | e]]; cbn -[Z.add taskkillCommand];
      eexists; (split; [reflexivity |]); cbn [calls now];
      rewrite <- ?app_assoc; [split; [reflexivity | lia] | reflexivity].
  - exists st. split; reflexivity.
Qed.

(** X5. A poll only reads: the requests of [isProcessRunning] are
    process-table queries and nothing else (no kill, no launcher, no
    timer), one on a POSIX platform and one or two on [win32], and the
    poll always returns a boolean. *)
Theorem isProcessRunning_only_queries (host : Host) (st : State) :
  exists running st' added,
    isProcessRunning host st = (Ok running, st') /\
    calls st' = (calls st ++ added)%list /\
    forallb isQuery added = true /\
    (1 <= List.length added <= 2)%nat /\
    (isWin32 (platform host) = false -> List.length added = 1%nat).
Proof.
  destruct (getRunning_returns host st) as (procs & s1 & Hr).
  destruct (getRunning_added host st) as (added & Hc & Hq & Hl & Hp).
  rewrite Hr in Hc. cbn [snd] in Hc.
  eexists _, _, added. split; [apply (isProcessRunning_run host st procs s1 Hr) |].
  cbn [calls]. repeat split; auto; lia.
Qed.

(** ** What a start lets through *)




(** On a host that rejects both launchers the error of the URI dispatch is
    swallowed and that of the executable launch reaches the caller. *)
Example startAntigravity_launch_failure_surfaces :
  fst (startAntigravity macNoLaunchers true initialState)
  = Throw "unable to find application" /\
  launchDispatchError macNoLaunchers 2 = Some "unable to find application" /\
  calls (snd (startAntigravity macNoLaunchers true initialState))
  = [ psSnapshot;
      CallExecAsync ("open " ++ quoted "antigravity://oauth-success");
      CallExecAsync "open -a Antigravity" ].
Proof. vm_compute. repeat split. Qed.

(** ** More on the wait loop *)

Lemma waitLoop_added (host : Host) (startTime timeoutMs : Z) (fuel : nat) :
  forall st r st',
    waitLoop host fuel startTime timeoutMs st = Some (r, st') ->
    exists added,
      calls st' = (calls st ++ added)%list /\
      forallb (fun c => isQuery c || isPollTimer c) added = true /\
      (now st <= now st')%Z.
Proof.
  induction fuel as [| fuel IH]; intros st r st' H; [discriminate |].
  cbn [waitLoop] in H.
  destruct (now st - startTime <? timeoutMs)%Z.
  - destruct (getRunning_returns host st) as (procs & s1 & Hr).
    destruct (getRunning_added host st) as (qs & Hc & Hq & _).
    rewrite Hr in Hc. cbn [snd] in Hc.
    destruct (isProcessRunning_returns host st) as (b & st1 & Hp & Hnow).
    pose proof (isProcessRunning_run host st procs s1 Hr) as Hrun.
    rewrite Hp in Hrun. inversion Hrun as [[Hb Hst1]].
    assert (Hc1 : calls st1 = (calls st ++ qs)%list)
      by (rewrite Hst1; exact Hc).
    assert (Hqs : forallb (fun c => isQuery c || isPollTimer c) qs = true).
    { apply (forallb_impl isQuery); [| exact Hq].
      intros c Hcq. rewrite Hcq. reflexivity. }
    rewrite Hp in H. destruct b; cbn [negb] in H.
    + destruct (sleep host 500 st1) as [u st2] eqn:Hs.
      assert (Hst2 : st2 = snd (sleep host 500 st1))
        by (rewrite Hs; reflexivity).
      assert (Hcs : calls st2 = (calls st1 ++ [CallSetTimeout 500])%list)
        by (rewrite Hst2; reflexivity).
      assert (Hns : (now st1 <= now st2)%Z)
        by (rewrite Hst2; unfold sleep, record; cbn [snd now]; lia).
      destruct (IH st2 r st' H) as (more & Hm & Hall & Hn).
      exists (qs ++ CallSetTimeout 500 :: more)%list.
      split; [| split].
      * rewrite Hm, Hcs, Hc1, <- !app_assoc. reflexivity.
      * rewrite forallb_app, Hqs. cbn. exact Hall.
      * lia.
    + inversion H; subst. exists qs. repeat split; assumption.
  - inversion H; subst. exists []. rewrite app_nil_r.
    repeat split. lia.
Qed.

(** X13. In the loop of [_waitForProcessExit], whenever the test of the
    deadline passes (the clock read at the test is less than [timeoutMs]
    past [startTime]) a poll follows: whatever the outcome, the requests
    from there on start with those of one [isProcessRunning].  When that
    poll finds the target gone the function returns normally in the state
    the poll leaves: no timer is set and no time is spent sleeping. *)
Theorem waitLoop_polls_in_time
    (host : Host) (fuel : nat) (startTime timeoutMs : Z) (st : State) :
  (now st - startTime < timeoutMs)%Z ->
  (fst (isProcessRunning host st) = Ok false ->
   waitLoop host (S fuel) startTime timeoutMs st
   = Some (Ok tt, snd (isProcessRunning host st))) /\
  (forall r st',
     waitLoop host (S fuel) startTime timeoutMs st = Some (r, st') ->
     exists more,
       calls st' = (calls (snd (isProcessRunning host st)) ++ more)%list).
Proof.
  intros Hin. cbn [waitLoop].
  apply Z.ltb_lt in Hin. rewrite Hin.
  destruct (isProcessRunning_returns host st) as (b & st1 & Hp & _).
  rewrite Hp. cbn [fst snd]. split.
  - intros Hb. inversion Hb; subst. reflexivity.
  - intros r st' H. destruct b; cbn [negb] in H.
    + destruct (sleep host 500 st1) as [u st2] eqn:Hs.
      assert (Hcs : calls st2 = (calls st1 ++ [CallSetTimeout 500])%list)
        by (replace st2 with (snd (sleep host 500 st1))
              by (rewrite Hs; reflexivity); reflexivity).
      destruct (waitLoop_added host startTime timeoutMs fuel st2 r st' H)
        as (added & Hc & _).
      exists (CallSetTimeout 500 :: added).
      rewrite Hc, Hcs, <- app_assoc. reflexivity.
    + inversion H; subst. exists []. rewrite app_nil_r. reflexivity.
Qed.

Lemma waitLoop_polls_in_time_witness :
  (now initialState - 0 < 5000)%Z /\
  fst (isProcessRunning (linuxRunningFor 0) initialState) = Ok false /\
  outcome (waitLoop (linuxRunningFor 0) 1 0 5000 initialState)
  = Some (Ok tt, 15%Z, [psSnapshot]).
Proof.
  split; [cbn; lia |]. split; [vm_compute; reflexivity |].
  rewrite (proj1 (waitLoop_polls_in_time (linuxRunningFor 0) 0 0 5000
                    initialState ltac:(cbn; lia))
             ltac:(vm_compute; reflexivity)).
  vm_compute. reflexivity.
Defined.

(** X14. Waiting is passive: whatever the outcome, the requests of
    [_waitForProcessExit] are process-table queries and 500 ms timers and
    nothing else (it never kills and never launches), and the clock at
    the end is not before the clock at the start. *)
Theorem waitForProcessExit_passive
    (host : Host) (fuel : nat) (timeoutMs : Z) (st : State)
    (r : Result unit) (st' : State) :
  _waitForProcessExit host fuel timeoutMs st = Some (r, st') ->
  exists added,
    calls st' = (calls st ++ added)%list /\
    forallb (fun c => isQuery c || isPollTimer c) added = true /\
    (now st <= now st')%Z.
Proof. apply waitLoop_added. Qed.

Lemma waitForProcessExit_passive_witness :
  exists r st',
    _waitForProcessExit (linuxRunningFor 100) 10 1200 initialState
    = Some (r, st') /\
    exists added,
      calls st' = (calls initialState ++ added)%list /\
      forallb (fun c => isQuery c || isPollTimer c) added = true /\
      (now initialState <= now st')%Z.
Proof.
  eexists _, _.
  match goal with
  | |- ?A /\ _ => assert (H : A) by (vm_compute; reflexivity)
  end.
  split; [exact H |].
  exact (waitForProcessExit_passive _ _ _ _ _ _ H).
Defined.

(** ** More on the parsers *)

(** X8. The structured-query parser needs a line break to yield anything:
    an output that is one line after trimming (an empty or blank output
    included) yields no record, even when that line is a well-formed data
    row, because the first line is always taken for the header. *)
Theorem csv_single_line_yields_nothing (output : string) :
  isPlain (Js.trim output) = true -> Csv.parseOutput output = [].
Proof.
  intros H. unfold Csv.parseOutput.
  rewrite (splitLines_plain _ H). reflexivity.
Qed.

Lemma csv_single_line_yields_nothing_witness :
  isPlain (Js.trim (csvRow "1234" "Antigravity.exe" sampleCommandLine ++ crlf))
  = true /\
  Csv.parseRow (csvRow "1234" "Antigravity.exe" sampleCommandLine)
  = Some {| pid := Js.Int 1234; name := "Antigravity.exe";
            cmd := sampleCommandLine |} /\
  Csv.parseOutput (csvRow "1234" "Antigravity.exe" sampleCommandLine ++ crlf)
  = [].
Proof.
  split; [reflexivity |]. split; [reflexivity |].
  apply csv_single_line_yields_nothing. reflexivity.
Defined.

Lemma splitChar_nonempty (sep : ascii) (s : string) : Js.splitChar sep s <> [].
Proof.
  destruct s as [| c s]; [discriminate |].
  cbn. destruct (Ascii.eqb c sep); [discriminate |].
  destruct (Js.splitChar sep s); discriminate.
Qed.

Lemma splitChar_app (sep : ascii) (a b : string) :
  Js.splitChar sep (a ++ String sep b)
  = (Js.splitChar sep a ++ Js.splitChar sep b)%list.
Proof.
  induction a as [| c a IH].
  - cbn. rewrite Ascii.eqb_refl. reflexivity.
  - cbn [append Js.splitChar]. rewrite IH.
    destruct (Ascii.eqb c sep); [reflexivity |].
    destruct (Js.splitChar sep a) eqn:Ha; [| reflexivity].
    destruct (splitChar_nonempty sep a Ha).
Qed.

Lemma collect_app {A B : Type} (f : A -> option B) (l1 l2 : list A) :
  collect f (l1 ++ l2)%list = (collect f l1 ++ collect f l2)%list.
Proof.
  induction l1 as [| x l1 IH]; [reflexivity |].
  cbn. destruct (f x); rewrite IH; reflexivity.
Qed.

(** X9. The snapshot parser works line by line and keeps the order: the
    parse of two snapshots joined by a line feed is the parse of the
    first followed by the parse of the second. *)
Theorem ps_parse_line_by_line (a b : string) :
  Ps.parseOutput (a ++ nl ++ b)
  = (Ps.parseOutput a ++ Ps.parseOutput b)%list.
Proof.
  unfold Ps.parseOutput, nl. cbn [append].
  rewrite splitChar_app. apply collect_app.
Qed.

(** ** More on the classifier *)

Lemma name_test_lower (c : string) :
  Js.includes c "Antigravity" || Js.includes (Js.toLowerCase c) "antigravity"
  = Js.includes (Js.toLowerCase c) "antigravity".
Proof.
  destruct (Js.includes c "Antigravity") eqn:H; [| reflexivity].
  cbn [orb]. symmetry.
  apply (includes_toLowerCase c "Antigravity" EmptyString).
  rewrite append_nil_r. exact H.
Qed.

(** X10. Off [win32] and [darwin] the classifier keeps a record exactly
    when its pid is not the caller's and its lower-cased command line
    contains [antigravity] but not [antigravity manager]: the test for
    the capitalised name adds nothing there. *)
Theorem isTargetProcess_elsewhere
    (platform : string) (callerPid : Z) (p : ProcessInfo) :
  isWin32 platform = false -> isDarwin platform = false ->
  isTargetProcess platform callerPid p
  = negb (Js.strictEq (pid p) (Js.Int callerPid))
    && negb (Js.includes (Js.toLowerCase (cmd p)) "antigravity manager")
    && Js.includes (Js.toLowerCase (cmd p)) "antigravity".
Proof.
  intros Hw Hd. unfold isTargetProcess. rewrite Hw, Hd.
  destruct (Js.strictEq (pid p) (Js.Int callerPid)); [reflexivity |].
  destruct (Js.includes (Js.toLowerCase (cmd p)) "antigravity manager");
    [reflexivity |].
  cbn [negb andb]. apply name_test_lower.
Qed.

Lemma isTargetProcess_elsewhere_witness :
  isWin32 "linux" = false /\ isDarwin "linux" = false /\
  isTargetProcess "linux" 4242
    {| pid := Js.Int 77; name := "antigravity";
       cmd := "antigravity /opt/antigravity/bin/antigravity" |}
  = true.
Proof.
  split; [reflexivity |]. split; [reflexivity |].
  rewrite (isTargetProcess_elsewhere "linux" 4242 _ eq_refl eq_refl).
  reflexivity.
Defined.

Lemma collect_In {A B : Type} (f : A -> option B) (l : list A) (y : B) :
  In y (collect f l) -> exists x, In x l /\ f x = Some y.
Proof.
  induction l as [| x l IH]; [intros [] |].
  cbn. destruct (f x) as [y' |] eqn:Hx.
  - intros [-> | Hin].
    + exists x. split; [left; reflexivity | exact Hx].
    + destruct (IH Hin) as (x' & Hin' & Hx'). exists x'.
      split; [right; exact Hin' | exact Hx'].
  - intros Hin. destruct (IH Hin) as (x' & Hin' & Hx'). exists x'.
    split; [right; exact Hin' | exact Hx'].
Qed.

(** X11. Off [win32] and [darwin] the name test of the classifier rejects
    nothing the snapshot parser produced: classifying a parsed snapshot
    only removes the caller's own row and the rows of a manager. *)
Theorem classify_after_prefilter
    (platform : string) (callerPid : Z) (output : string) :
  isWin32 platform = false -> isDarwin platform = false ->
  classify platform callerPid (processList platform output)
  = filter (fun p =>
              negb (Js.strictEq (pid p) (Js.Int callerPid))
              && negb (Js.includes (Js.toLowerCase (cmd p))
                         "antigravity manager"))
      (Ps.parseOutput output).
Proof.
  intros Hw Hd. unfold classify, processList. rewrite Hw.
  apply filter_ext_in. intros p Hin.
  unfold Ps.parseOutput in Hin. apply collect_In in Hin.
  destruct Hin as (line & _ & Hp).
  destruct (parseLine_prefilter line p Hp) as [Hinc _].
  unfold isTargetProcess. rewrite Hw, Hd.
  destruct (Js.strictEq (pid p) (Js.Int callerPid)); [reflexivity |].
  destruct (Js.includes (Js.toLowerCase (cmd p)) "antigravity manager");
    [reflexivity |].
  cbn [negb andb]. rewrite Hinc. apply orb_true_r.
Qed.

Lemma classify_after_prefilter_witness :
  isWin32 "linux" = false /\ isDarwin "linux" = false /\
  classify "linux" 4242
    (processList "linux"
       ("4242 antigravity-manager /opt/antigravity manager/run" ++ nl
          ++ "77 antigravity /opt/antigravity/bin/antigravity"))
  = [ {| pid := Js.Int 77; name := "antigravity";
         cmd := "antigravity /opt/antigravity/bin/antigravity" |} ].
Proof.
  split; [reflexivity |]. split; [reflexivity |].
  rewrite (classify_after_prefilter "linux" 4242 _ eq_refl eq_refl).
  reflexivity.
Defined.

(** ** More on the path rewrite *)

Lemma replaceSlashes_fixed (s : string) :
  Js.includes s "/" = false -> replaceSlashes s = s.
Proof.
  induction s as [| c s IH]; [reflexivity |].
  cbn [Js.includes]. intros H. apply orb_false_elim in H.
  destruct H as [Hc Hs]. unfold Js.startsWith in Hc. cbn [Js.stripPrefix] in Hc.
  cbn [replaceSlashes]. rewrite (IH Hs).
  destruct (Ascii.eqb_spec c "/") as [-> | _]; [discriminate | reflexivity].
Qed.

Lemma replaceDriveMount_fixed (s : string) :
  Js.includes s "/" = false -> replaceDriveMount s = s.
Proof.
  intros H. destruct (replaceDriveMount_cases s) as [Hs | (d & r & _ & Hs)];
    [exact Hs |].
  subst s. discriminate H.
Qed.

(** X12. The path rewrite is idempotent, and its result never holds a
    slash: a path that was already rewritten (or a native Windows path
    without slashes) goes through unchanged. *)
Theorem toWinPath_idempotent (path : string) :
  Js.includes (toWinPath path) "/" = false /\
  toWinPath (toWinPath path) = toWinPath path /\
  (if Js.includes path "/" then True else toWinPath path = path).
Proof.
  assert (Hno : Js.includes (toWinPath path) "/" = false)
    by apply replaceSlashes_no_slash.
  split; [exact Hno |]. split.
  - unfold toWinPath at 1. rewrite (replaceDriveMount_fixed _ Hno).
    apply replaceSlashes_fixed. exact Hno.
  - destruct (Js.includes path "/") eqn:Hp; [exact I |].
    unfold toWinPath. rewrite (replaceDriveMount_fixed _ Hp).
    apply replaceSlashes_fixed. exact Hp.
Qed.

(** ** The front of [decrypt] *)

Lemma consHead_length (c : ascii) (l : list string) :
  l <> [] -> List.length (Js.consHead c l) = List.length l.
Proof. destruct l; [congruence | reflexivity]. Qed.

Lemma splitChar_length (sep : ascii) (s : string) :
  List.length (Js.splitChar sep s) = S (countChar sep s).
Proof.
  induction s as [| a s IH]; [reflexivity |].
  cbn [Js.splitChar countChar]. destruct (Ascii.eqb a sep).
  - cbn. rewrite IH. reflexivity.
  - rewrite consHead_length by apply splitChar_nonempty. exact IH.
Qed.

Lemma concat_consHead (sep : string) (a : ascii) (l : list string) :
  l <> [] ->
  String.concat sep (Js.consHead a l) = String a (String.concat sep l).
Proof. destruct l as [| p [| p' ps]]; [congruence | reflexivity ..]. Qed.

Lemma concat_cons (sep x : string) (l : list string) :
  l <> [] -> String.concat sep (x :: l) = x ++ sep ++ String.concat sep l.
Proof. destruct l as [| p ps]; [congruence | reflexivity]. Qed.

Lemma join_splitChar (sep : ascii) (s : string) :
  Js.join (String sep EmptyString) (Js.splitChar sep s) = s.
Proof.
  unfold Js.join. induction s as [| a s IH]; [reflexivity |].
  cbn [Js.splitChar]. destruct (Ascii.eqb_spec a sep) as [-> | Hne].
  - rewrite concat_cons by apply splitChar_nonempty.
    rewrite IH. reflexivity.
  - rewrite concat_consHead by apply splitChar_nonempty.
    rewrite IH. reflexivity.
Qed.

Lemma splitChar_no_sep (sep : ascii) (s : string) :
  Forall (fun p => countChar sep p = 0%nat) (Js.splitChar sep s).
Proof.
  induction s as [| a s IH]; [repeat constructor |].
  cbn [Js.splitChar]. destruct (Ascii.eqb a sep) eqn:Ha.
  - constructor; [reflexivity | exact IH].
  - destruct (Js.splitChar sep s) as [| p ps]; cbn [Js.consHead].
    + repeat constructor. cbn. rewrite Ha. reflexivity.
    + inversion IH; subst. constructor; [| assumption].
      cbn. rewrite Ha. assumption.
Qed.

(** ** The snapshot as a whole *)

Lemma splitChar_plain (sep : ascii) (s : string) :
  countChar sep s = 0%nat -> Js.splitChar sep s = [s].
Proof.
  induction s as [| a s IH]; [reflexivity |].
  cbn [countChar Js.splitChar]. destruct (Ascii.eqb a sep); [discriminate |].
  intros H. rewrite (IH H). reflexivity.
Qed.

Lemma splitChar_join (sep : ascii) (l : string) (ls : list string) :
  Forall (fun p => countChar sep p = 0%nat) (l :: ls) ->
  Js.splitChar sep (Js.join (String sep EmptyString) (l :: ls)) = l :: ls.
Proof.
  unfold Js.join. revert l. induction ls as [| l' ls IH]; intros l H.
  - cbn [String.concat]. apply splitChar_plain.
    exact (Forall_inv H).
  - change (String.concat (String sep EmptyString) (l :: l' :: ls))
      with (l ++ String sep (String.concat (String sep EmptyString) (l' :: ls))).
    rewrite splitChar_app, (IH l' (Forall_inv_tail H)).
    rewrite (splitChar_plain sep l (Forall_inv H)). reflexivity.
Qed.

Lemma parseLine_blank (blank : string) :
  isBlank blank = true -> Ps.parseLine blank = None.
Proof.
  intros H. unfold Ps.parseLine, Js.trim.
  rewrite <- (append_nil_r blank), (trimStart_blank blank EmptyString H).
  reflexivity.
Qed.

Lemma parseLine_textOfLine (l : SnapshotLine) :
  wellFormedLine l = true -> Ps.parseLine (textOfLine l) = recordOfLine l.
Proof.
  unfold wellFormedLine. intros H. apply andb_prop in H. destruct H as [_ H].
  destruct l as [blank | lead first more trail]; cbn [textOfLine recordOfLine].
  - apply parseLine_blank. exact H.
  - apply andb_prop in H. destruct H as [H Hm].
    apply andb_prop in H. destruct H as [H Hf].
    apply andb_prop in H. destruct H as [Hl Ht].
    apply parseLine_spread; assumption.
Qed.

Lemma parseOutput_snapshot (snapshot : list SnapshotLine) :
  forallb wellFormedLine snapshot = true ->
  Ps.parseOutput (snapshotText snapshot) = collect recordOfLine snapshot.
Proof.
  intros H. unfold Ps.parseOutput, snapshotText.
  destruct snapshot as [| l ls]; [reflexivity |].
  cbn [map]. unfold nl. rewrite splitChar_join.
  - change (textOfLine l :: map textOfLine ls) with (map textOfLine (l :: ls)).
    induction (l :: ls) as [| x xs IH]; [reflexivity |].
    cbn [forallb] in H. apply andb_prop in H. destruct H as [Hx Hxs].
    cbn [map collect]. rewrite (parseLine_textOfLine x Hx), (IH Hxs).
    reflexivity.
  - change (textOfLine l :: map textOfLine ls) with (map textOfLine (l :: ls)).
    apply Forall_map. apply Forall_forall. intros x Hin.
    rewrite forallb_forall in H. specialize (H x Hin).
    unfold wellFormedLine, noLineFeed in H.
    apply andb_prop in H. destruct H as [H _].
    apply Nat.eqb_eq. exact H.
Qed.

(** C7 (as the code has it).  Off [win32] the list of candidates is the
    parse of the [ps] snapshot, which reads every line of the output, in
    order, and keeps one record for each line that yields one; every
    record in it comes from a line of the snapshot, has a pid that parsed,
    and a command line that contains [antigravity] in lower case; on
    [win32] the parser does not look for the name, but on every platform
    the records left by the classifier have it.  A line of the snapshot is
    read token by token: leading and trailing white space and the length
    of the gaps make no difference; a line with fewer than two tokens or
    with a first token that does not parse as a number yields nothing;
    otherwise the pid is what [parseInt] makes of the first token, the
    name is the second token and the command line is every token after
    the first joined by single spaces.  So a snapshot of such lines, blank
    ones among them, yields for each retained line its record and nothing
    else.  The sample line, with the name of the application in it, yields
    the sample record. *)
Theorem ps_parser_rows
    (platform output lead trail first : string)
    (more : list (string * string)) (snapshot : list SnapshotLine)
    (anyPlatform : string) (callerPid : Z) (records : list ProcessInfo) :
  isWin32 platform = false ->
  isBlank lead = true -> isBlank trail = true ->
  isToken first = true -> wellSpaced more = true ->
  forallb wellFormedLine snapshot = true ->
  processList platform output = Ps.parseOutput output /\
  processList platform output
  = collect Ps.parseLine (Js.splitChar Js.LF output) /\
  Js.join nl (Js.splitChar Js.LF output) = output /\
  Forall (fun p =>
            Js.includes (Js.toLowerCase (cmd p)) "antigravity" = true /\
            Js.isNaN (pid p) = false /\
            exists line,
              In line (Js.splitChar Js.LF output) /\
              Ps.parseLine line = Some p)
         (processList platform output) /\
  Forall (fun p => Js.includes (Js.toLowerCase (cmd p)) "antigravity" = true)
         (classify anyPlatform callerPid records) /\
  Ps.parseLine (lead ++ spread first more ++ trail)
  = recordOfTokens first (map snd more) /\
  processList platform (snapshotText snapshot)
  = collect recordOfLine snapshot /\
  Ps.parseOutput sampleSnapshotLine
  = [ {| pid := Js.Int 5678; name := "Antigravity";
         cmd := "Antigravity /usr/local/bin/Antigravity --serve" |} ].
Proof.
  intros Hw Hl Ht Hf Hm Hs.
  assert (Hlist : forall o, processList platform o = Ps.parseOutput o)
    by (intros o; unfold processList; rewrite Hw; reflexivity).
  split; [apply Hlist |]. split; [apply Hlist |].
  split; [apply join_splitChar |].
  split; [| split; [| split; [| split]]].
  - rewrite Hlist. unfold Ps.parseOutput. apply collect_Forall.
    intros line p Hin Hp.
    destruct (parseLine_prefilter line p Hp) as [Hinc Hnan].
    split; [exact Hinc |]. split; [exact Hnan |].
    exists line. split; assumption.
  - apply Forall_forall. intros p Hin. apply filter_In in Hin.
    destruct Hin as [_ Hin].
    apply (isTargetProcess_names_antigravity anyPlatform callerPid p Hin).
  - apply parseLine_spread; assumption.
  - rewrite Hlist. apply parseOutput_snapshot. exact Hs.
  - reflexivity.
Qed.

Lemma ps_parser_rows_witness :
  isWin32 "linux" = false /\
  isBlank "  " = true /\ isBlank (" " ++ tab) = true /\
  isToken "5678" = true /\
  wellSpaced [ ("   ", "Antigravity"); (tab ++ " ", "/usr/local/bin/Antigravity");
               ("  ", "--serve") ] = true /\
  forallb wellFormedLine sampleSnapshot = true /\
  Ps.parseLine
    ("  " ++ "5678" ++ "   " ++ "Antigravity" ++ tab ++ " "
       ++ "/usr/local/bin/Antigravity" ++ "  " ++ "--serve" ++ " " ++ tab)
  = Some {| pid := Js.Int 5678; name := "Antigravity";
            cmd := "Antigravity /usr/local/bin/Antigravity --serve" |} /\
  processList "linux" (snapshotText sampleSnapshot)
  = [ {| pid := Js.Int 5678; name := "Antigravity";
         cmd := "Antigravity /usr/local/bin/Antigravity --serve" |};
      {| pid := Js.Int 9012; name := "antigravity-helper";
         cmd := "antigravity-helper /opt/antigravity-helper" |} ].
Proof.
  do 6 (split; [reflexivity |]).
  pose proof (ps_parser_rows "linux" EmptyString "  " (" " ++ tab) "5678"
                [ ("   ", "Antigravity");
                  (tab ++ " ", "/usr/local/bin/Antigravity");
                  ("  ", "--serve") ]
                sampleSnapshot
                "win32" 4242 []
                eq_refl eq_refl eq_refl eq_refl eq_refl eq_refl) as W.
  destruct W as (_ & _ & _ & _ & _ & W1 & W2 & _).
  split; [exact W1 | exact W2].
Defined.

(** C7 as stated fails: on [win32] the parser keeps a row whose command
    line does not contain the name of the application (the query names the
    process, the command line may be a short path), and the sample line of
    the claim, which names no Antigravity, yields nothing. *)
Lemma csv_rows_not_prefiltered :
  processList "win32"
    (csvHeader ++ crlf ++ csvRow "1234" "Antigravity.exe" shortPathCommandLine)
  = [ {| pid := Js.Int 1234; name := "Antigravity.exe";
         cmd := shortPathCommandLine |} ] /\
  Js.includes (Js.toLowerCase shortPathCommandLine) "antigravity" = false /\
  Ps.parseOutput "5678 App /usr/local/bin/App --serve" = [].
Proof. repeat split. Qed.

(** X15. [decrypt] hands back its input untouched, without consulting the
    key store, exactly when the text starts with a brace or a bracket or
    does not hold exactly two colons.  Any other text, whatever it is, is
    taken for cipher text: it is cut at its two colons into three
    colon-free parts that go to the cipher; what the cipher returns is the
    result, and an error of the key store or of the cipher is logged once
    and thrown on unchanged. *)
Theorem decrypt_dispatch
    (Key : Type) (getKey : M Key)
    (decipher : Key -> string -> string -> string -> M string)
    (text : string) (st : State) :
  if Js.startsWith text "{" || Js.startsWith text "["
     || negb (countChar ":" text =? 2)%nat
  then decrypt Key getKey decipher text st = (Ok text, st)
  else
    exists iv tag data,
      text = iv ++ ":" ++ tag ++ ":" ++ data /\
      countChar ":" iv = 0%nat /\ countChar ":" tag = 0%nat /\
      countChar ":" data = 0%nat /\
      decrypt Key getKey decipher text st
      = match (key <- getKey ;; decipher key iv tag data) st with
        | (Ok plain, st') => (Ok plain, st')
        | (Throw e, st') =>
            (Throw e,
             snd (logWith LError "Security: Decryption failed" (Some e) st'))
        end.
Proof.
  unfold decrypt.
  destruct (Js.startsWith text "{" || Js.startsWith text "[") eqn:Hb;
    [reflexivity |].
  cbn [orb]. rewrite splitChar_length.
  change (S (countChar ":" text) =? 3)%nat with (countChar ":" text =? 2)%nat.
  destruct (countChar ":" text =? 2)%nat eqn:Hc; [| reflexivity].
  cbn [negb].
  pose proof (splitChar_length ":" text) as Hlen.
  apply Nat.eqb_eq in Hc. rewrite Hc in Hlen.
  pose proof (join_splitChar ":" text) as Hjoin.
  pose proof (splitChar_no_sep ":" text) as Hno.
  destruct (Js.splitChar ":" text) as [| iv [| tag [| data [| x l]]]];
    try discriminate Hlen.
  exists iv, tag, data.
  pose proof (Forall_inv Hno) as Hiv.
  pose proof (Forall_inv (Forall_inv_tail Hno)) as Htag.
  pose proof (Forall_inv (Forall_inv_tail (Forall_inv_tail Hno))) as Hdata.
  cbv beta in Hiv, Htag, Hdata.
  split; [symmetry; exact Hjoin |]. repeat (split; [assumption |]).
  cbn [nth]. unfold tryCatch.
  destruct ((key <- getKey ;; decipher key iv tag data) st) as [[plain | e] st'];
    reflexivity.
Qed.

(** ** The timer of the cloud monitor *)

Lemma monitor_invariant (ops : list Monitor.Op) (s : Monitor.MonitorState) :
  (Monitor.timers s
   = match Monitor.intervalId s with
     | Some id => [(id, Monitor.POLL_INTERVAL)]
     | None => []
     end) ->
  Monitor.pollsStarted s = Monitor.nextTimer s ->
  let s' := fold_left Monitor.step ops s in
  Monitor.timers s'
  = match Monitor.intervalId s' with
    | Some id => [(id, Monitor.POLL_INTERVAL)]
    | None => []
    end /\
  Monitor.pollsStarted s' = Monitor.nextTimer s'.
Proof.
  revert s. induction ops as [| op ops IH]; intros s Ht Hp; [split; assumption |].
  cbn [fold_left]. apply IH.
  - destruct op; unfold Monitor.step, Monitor.start, Monitor.stop.
    + destruct (Monitor.intervalId s) eqn:Hi; [rewrite Hi; exact Ht |].
      cbn. rewrite Ht. reflexivity.
    + destruct (Monitor.intervalId s) as [id |] eqn:Hi; [| rewrite Hi; exact Ht].
      cbn [Monitor.timers Monitor.intervalId]. rewrite Ht.
      unfold Monitor.clearInterval. cbn. rewrite Nat.eqb_refl. reflexivity.
  - destruct op; unfold Monitor.step, Monitor.start, Monitor.stop;
      destruct (Monitor.intervalId s); cbn; congruence.
Qed.

(** X16. Whatever sequence of [start] and [stop] calls the cloud monitor
    receives, at most one interval timer is set at any time: there is
    exactly one, with the five-minute period, when the monitor is started
    and none when it is stopped; every [start] that takes effect starts
    exactly one immediate poll, and a [start] on a started monitor or a
    [stop] on a stopped one changes nothing. *)
Theorem monitor_single_timer (ops : list Monitor.Op) :
  let s := Monitor.run ops in
  Monitor.timers s
  = match Monitor.intervalId s with
    | Some id => [(id, 300000%Z)]
    | None => []
    end /\
  (List.length (Monitor.timers s) <= 1)%nat /\
  Monitor.pollsStarted s = Monitor.nextTimer s /\
  Monitor.start (Monitor.start s) = Monitor.start s /\
  Monitor.stop (Monitor.stop s) = Monitor.stop s /\
  Monitor.intervalId (Monitor.start s) <> None /\
  Monitor.intervalId (Monitor.stop s) = None.
Proof.
  destruct (monitor_invariant ops Monitor.initial eq_refl eq_refl) as [Ht Hp].
  fold (Monitor.run ops) in Ht, Hp. cbv zeta.
  split; [exact Ht |]. split; [| split; [exact Hp |]].
  - rewrite Ht. destruct (Monitor.intervalId (Monitor.run ops)); cbn; lia.
  - unfold Monitor.start, Monitor.stop.
    destruct (Monitor.intervalId (Monitor.run ops)) eqn:Hi; cbn; rewrite ?Hi;
      repeat split; congruence.
Qed.

(** ** The three platform tests compared *)

(** X17. The test of the remaining platforms is the loosest of the three:
    a record that the classifier keeps on any platform, [win32] and
    [darwin] included, is also kept on a platform that is neither. *)
Theorem isTargetProcess_loosest
    (platform other : string) (callerPid : Z) (p : ProcessInfo) :
  isWin32 other = false -> isDarwin other = false ->
  isTargetProcess platform callerPid p = true ->
  isTargetProcess other callerPid p = true.
Proof.
  intros Hw Hd Ht.
  pose proof (isTargetProcess_names_antigravity platform callerPid p Ht) as Hn.
  unfold isTargetProcess in *. rewrite Hw, Hd.
  destruct (Js.strictEq (pid p) (Js.Int callerPid)); [discriminate |].
  destruct (Js.includes (Js.toLowerCase (cmd p)) "antigravity manager");
    [discriminate |].
  rewrite Hn. apply orb_true_r.
Qed.

Lemma isTargetProcess_loosest_witness :
  isWin32 "linux" = false /\ isDarwin "linux" = false /\
  isTargetProcess "win32" 4242
    {| pid := Js.Int 1234; name := "Antigravity.exe";
       cmd := "C:\Manager\Antigravity.exe --flag" |} = true /\
  isTargetProcess "linux" 4242
    {| pid := Js.Int 1234; name := "Antigravity.exe";
       cmd := "C:\Manager\Antigravity.exe --flag" |} = true.
Proof.
  split; [reflexivity |]. split; [reflexivity |]. split; [reflexivity |].
  apply (isTargetProcess_loosest "win32" "linux" 4242 _ eq_refl eq_refl).
  reflexivity.
Defined.

(** ** How many records a parse can give *)

Lemma collect_length {A B : Type} (f : A -> option B) (l : list A) :
  (List.length (collect f l) <= List.length l)%nat.
Proof.
  induction l as [| x l IH]; [apply Nat.le_refl |].
  cbn. destruct (f x); cbn; lia.
Qed.

Lemma splitLines_nonempty (s : string) : Js.splitLines s <> [].
Proof.
  destruct s as [| c s]; [discriminate |].
  cbn [Js.splitLines]. destruct (Ascii.eqb c Js.LF); [discriminate |].
  destruct s as [| d s].
  - cbn. discriminate.
  - destruct (Ascii.eqb c Js.CR && Ascii.eqb d Js.LF); [discriminate |].
    destruct (Js.splitLines (String d s)); discriminate.
Qed.

Lemma splitLines_length (s : string) :
  (List.length (Js.splitLines s) <= S (countChar Js.LF s))%nat.
Proof.
  assert (H : forall n s, (String.length s <= n)%nat ->
                          (List.length (Js.splitLines s)
                           <= S (countChar Js.LF s))%nat).
  { clear s. induction n as [| n IH]; intros s Hn.
    - destruct s; [cbn; lia | cbn in Hn; lia].
    - destruct s as [| c s]; [cbn; lia |].
      cbn [String.length] in Hn.
      cbn [Js.splitLines countChar].
      destruct (Ascii.eqb c Js.LF) eqn:Hc.
      + cbn [List.length]. specialize (IH s ltac:(lia)). lia.
      + destruct s as [| d s].
        * cbn. lia.
        * destruct (Ascii.eqb c Js.CR && Ascii.eqb d Js.LF) eqn:Hcr.
          -- apply andb_prop in Hcr. destruct Hcr as [_ Hd].
             cbn [List.length countChar]. rewrite Hd.
             cbn [String.length] in Hn. specialize (IH s ltac:(lia)). lia.
          -- rewrite consHead_length by apply splitLines_nonempty.
             specialize (IH (String d s) ltac:(lia)). lia. }
  apply (H (String.length s)). apply Nat.le_refl.
Qed.

(** X18. A parse gives at most one record per line: the snapshot parser
    no more than one more than the line feeds of the output, the
    structured-query parser no more than the line feeds of the trimmed
    output (its first line never counts). *)
Theorem parsers_one_record_per_line (output : string) :
  (List.length (Ps.parseOutput output) <= S (countChar Js.LF output))%nat /\
  (List.length (Csv.parseOutput output)
   <= countChar Js.LF (Js.trim output))%nat.
Proof.
  split.
  - unfold Ps.parseOutput.
    eapply Nat.le_trans; [apply collect_length |].
    rewrite splitChar_length. apply Nat.le_refl.
  - unfold Csv.parseOutput.
    eapply Nat.le_trans; [apply collect_length |].
    pose proof (splitLines_length (Js.trim output)) as H.
    destruct (Js.splitLines (Js.trim output)) as [| l ls] eqn:Hs;
      [destruct (splitLines_nonempty _ Hs) |].
    cbn [tl List.length] in *. lia.
Qed.
